(** * Orientation sensing task of the water feature controller

    A shallow embedding of [source/motion_task.c]: the BMI160 orientation
    task, its three bus operations, the interrupt handler and the
    classification of an acceleration sample into one of six orientations.

    The C code runs on FreeRTOS and talks to vendor drivers.  Those are
    represented as follows.
    - Every driver call is an event appended to a trace; what a driver call
      answers is read from a [hardware] record, so theorems quantify over
      every possible behaviour of the board.
    - The binary semaphore [i2c_semaphore] and the task notification state
      are fields of the [world].
    - [vTaskSuspend(NULL)] and a take of a semaphore nobody will give stop
      the task: task code lives in a state monad with a [Stop] outcome. *)

From Stdlib Require Import ZArith List String Ascii Bool Lia.
Import ListNotations.
Local Open Scope Z_scope.

(** ** Scalar types *)

(** [cy_rslt_t] is a 32-bit unsigned result code; zero is success. *)
Definition cy_rslt_t := Z.
Definition CY_RSLT_SUCCESS : cy_rslt_t := 0.

(** The accelerometer components are [int16_t] in the vendor header. *)
Definition int16_range (v : Z) : Prop := -32768 <= v <= 32767.

(** Conversion to [uint16_t], as done by the assignments to
    [abs_x], [abs_y] and [abs_z]. *)
Definition to_uint16 (v : Z) : Z := v mod 65536.

(** [abs] of the C library on an [int]; its argument is a promoted
    [int16_t], so the result never overflows. *)
Definition abs (i : Z) : Z := Z.abs i.

(** ** Data model (motion_task.c, lines 112-121) *)

Inductive orientation_t : Type :=
| ORIENTATION_NULL
| ORIENTATION_TOP_EDGE
| ORIENTATION_BOTTOM_EDGE
| ORIENTATION_LEFT_EDGE
| ORIENTATION_RIGHT_EDGE
| ORIENTATION_DISP_UP
| ORIENTATION_DISP_DOWN.

Definition orientation_value (o : orientation_t) : Z :=
  match o with
  | ORIENTATION_NULL => 0
  | ORIENTATION_TOP_EDGE => 1
  | ORIENTATION_BOTTOM_EDGE => 2
  | ORIENTATION_LEFT_EDGE => 3
  | ORIENTATION_RIGHT_EDGE => 4
  | ORIENTATION_DISP_UP => 5
  | ORIENTATION_DISP_DOWN => 6
  end.

(** One three-axis reading. *)
Record bmi160_sensor_data : Type := mk_sensor_data { x : Z; y : Z; z : Z }.

(** What [mtb_bmi160_read] fills in. *)
Record mtb_bmi160_data_t : Type := mk_data
  { accel : bmi160_sensor_data; gyro : bmi160_sensor_data }.

Definition int16_sample (s : bmi160_sensor_data) : Prop :=
  int16_range (x s) /\ int16_range (y s) /\ int16_range (z s).

(** ** Events, hardware and world *)

Inductive bus_op : Type :=
| I2C_INIT            (* cyhal_i2c_init *)
| I2C_CONFIGURE       (* cyhal_i2c_configure *)
| BMI160_INIT_I2C     (* mtb_bmi160_init_i2c *)
| BMI160_CONFIG_INT   (* mtb_bmi160_config_int *)
| BMI160_READ.        (* mtb_bmi160_read *)

Inductive event : Type :=
| EvPrintf (fmt : string) (args : list Z)
| EvSemTake
| EvSemGive
| EvBus (op : bus_op)
| EvNotifyFromISR         (* xTaskNotifyFromISR on the sensing task *)
| EvYieldFromISR          (* portYIELD_FROM_ISR, the handler's epilogue *)
| EvNotifyWaitReturn.     (* xTaskNotifyWait has returned to the task *)

(** The answers of the board and of the kernel allocator. *)
Record hardware : Type := mk_hardware
  { semaphore_created : bool;               (* xSemaphoreCreateBinary <> NULL *)
    cyhal_i2c_init_rslt : cy_rslt_t;
    cyhal_i2c_configure_rslt : cy_rslt_t;
    mtb_bmi160_init_i2c_rslt : cy_rslt_t;
    mtb_bmi160_config_int_rslt : cy_rslt_t;
    mtb_bmi160_read_rslt : nat -> cy_rslt_t * mtb_bmi160_data_t }.

(** [i2c_semaphore]: [None] is the NULL handle, [Some true] a semaphore
    that can be taken, [Some false] one that is held. *)
Record world : Type := mk_world
  { i2c_semaphore : option bool;
    notify_pending : bool;
    reads_done : nat;
    trace : list event }.

Definition log (e : event) (w : world) : world :=
  mk_world (i2c_semaphore w) (notify_pending w) (reads_done w) (trace w ++ [e]).

Definition set_semaphore (s : option bool) (w : world) : world :=
  mk_world s (notify_pending w) (reads_done w) (trace w).

Definition set_pending (p : bool) (w : world) : world :=
  mk_world (i2c_semaphore w) p (reads_done w) (trace w).

Definition count_read (w : world) : world :=
  mk_world (i2c_semaphore w) (notify_pending w) (S (reads_done w)) (trace w).

(** ** The task monad *)

Inductive stop_reason : Type :=
| Suspended             (* vTaskSuspend(NULL) *)
| BlockedOnSemaphore    (* xSemaphoreTake(..., portMAX_DELAY) on a held semaphore *)
| NullHandle.           (* a semaphore call on the NULL handle *)

Inductive outcome (A : Type) : Type :=
| Ret (a : A)
| Stop (r : stop_reason).
Arguments Ret {A} a.
Arguments Stop {A} r.

Definition task (A : Type) : Type := world -> outcome A * world.

Definition ret {A} (a : A) : task A := fun w => (Ret a, w).

Definition bind {A B} (m : task A) (k : A -> task B) : task B :=
  fun w => match m w with
           | (Ret a, w') => k a w'
           | (Stop r, w') => (Stop r, w')
           end.

Declare Scope task_scope.
Delimit Scope task_scope with task.
Notation "v <- c1 ;; c2" := (bind c1 (fun v => c2))
  (at level 61, c1 at next level, right associativity) : task_scope.
Notation "c1 ;; c2" := (bind c1 (fun _ => c2))
  (at level 61, right associativity) : task_scope.
Local Open Scope task_scope.

(** ** Kernel and library primitives *)

Definition printf (fmt : string) (args : list Z) : task unit :=
  fun w => (Ret tt, log (EvPrintf fmt args) w).

Definition vTaskSuspend : task unit :=
  fun w => (Stop Suspended, w).

(** Modelled from the spec: the FreeRTOS binary semaphore, whose code is
    kernel code outside this repository.  A take with [portMAX_DELAY]
    waits until the token is free and then marks it held; no other task
    knows [i2c_semaphore], so a take of a held token never returns.  A
    give marks the token free. *)
Definition xSemaphoreTake : task unit :=
  fun w => match i2c_semaphore w with
           | Some true => (Ret tt, log EvSemTake (set_semaphore (Some false) w))
           | Some false => (Stop BlockedOnSemaphore, w)
           | None => (Stop NullHandle, w)
           end.

Definition xSemaphoreGive : task unit :=
  fun w => match i2c_semaphore w with
           | Some _ => (Ret tt, log EvSemGive (set_semaphore (Some true) w))
           | None => (Stop NullHandle, w)
           end.

(** Macro [CHECK_RESULT] (lines 59-67). *)
Definition CHECK_RESULT (result : cy_rslt_t) (fmt : string) (args : list Z)
  : task unit :=
  if result =? CY_RSLT_SUCCESS then ret tt
  else (printf fmt args ;; vTaskSuspend).

(** ** Text written by the task *)

Definition ESC : string := String (ascii_of_nat 27) EmptyString.
Definition LF : string := String (ascii_of_nat 10) EmptyString.

Definition fmt_clear : string := (ESC ++ "[2J" ++ ESC ++ "[;H")%string.
Definition fmt_rule : string :=
  ("***************************************************************************" ++ LF)%string.
Definition fmt_title : string :=
  ("    PSoC 6 MCU: Interfacing BMI160 Motion Sensor Through I2C (FreeRTOS)    " ++ LF)%string.
Definition fmt_semaphore_failed : string :=
  (" Error : Motion Sensor - Failed to create semaphore !!" ++ LF)%string.
Definition fmt_init_failed : string :=
  (" Error : Motion Sensor initialization failed !!" ++ LF
   ++ " Check hardware connection. [Error code: 0x%lx]" ++ LF)%string.
Definition fmt_init_ok : string :=
  (" BMI160 Motion Sensor successfully initialized." ++ LF)%string.
Definition fmt_config_failed : string :=
  (" Error : Motion Sensor interrupt configuration failed !!" ++ LF
   ++ " [Error code: 0x%lx]" ++ LF)%string.
Definition fmt_config_ok : string :=
  (" BMI160 Motion Sensor interrupts successfully configured and enabled."
   ++ LF ++ LF ++ LF)%string.
Definition fmt_read_failed : string :=
  (" Error : Could not read motion sensor data !!" ++ LF
   ++ " [Error code: 0x%lx]" ++ LF)%string.
Definition fmt_i2c_init_failed : string :=
  (" Error : I2C initialization failed !!" ++ LF
   ++ " [Error code: 0x%lx]" ++ LF)%string.
Definition fmt_i2c_configure_failed : string :=
  (" Error : I2C configuration failed !!" ++ LF
   ++ " [Error code: 0x%lx]" ++ LF)%string.

Definition fmt_top_edge : string :=
  (ESC ++ "[1FOrientation = TOP_EDGE   " ++ LF)%string.
Definition fmt_bottom_edge : string :=
  (ESC ++ "[1FOrientation = BOTTOM_EDGE" ++ LF)%string.
Definition fmt_left_edge : string :=
  (ESC ++ "[1FOrientation = LEFT_EDGE  " ++ LF)%string.
Definition fmt_right_edge : string :=
  (ESC ++ "[1FOrientation = RIGHT_EDGE " ++ LF)%string.
Definition fmt_disp_up : string :=
  (ESC ++ "[1FOrientation = DISP_UP    " ++ LF)%string.
Definition fmt_disp_down : string :=
  (ESC ++ "[1FOrientation = DISP_DOWN  " ++ LF)%string.

Definition orientation_formats : list string :=
  [fmt_top_edge; fmt_bottom_edge; fmt_left_edge; fmt_right_edge;
   fmt_disp_up; fmt_disp_down].

(** An orientation report is a [printf] of one of the six orientation lines. *)
Definition is_orientation_report (e : event) : bool :=
  match e with
  | EvPrintf fmt _ => existsb (String.eqb fmt) orientation_formats
  | _ => false
  end.

Definition is_bus_operation (e : event) : bool :=
  match e with EvBus _ => true | _ => false end.

Definition is_semaphore_operation (e : event) : bool :=
  match e with EvSemTake | EvSemGive => true | _ => false end.

Definition is_printf (e : event) : bool :=
  match e with EvPrintf _ _ => true | _ => false end.

(** Events that only the interrupt handler produces. *)
Definition is_isr_event (e : event) : bool :=
  match e with EvNotifyFromISR | EvYieldFromISR => true | _ => false end.

(** The error lines that print the failing call's result code. *)
Definition error_formats_with_code : list string :=
  [fmt_init_failed; fmt_config_failed; fmt_read_failed;
   fmt_i2c_init_failed; fmt_i2c_configure_failed].

(** ** Orientation classification (lines 465-516)

    The body of the success branch of [motionsensor_update_orientation];
    its value is what the branch stores through [orientation_result]. *)
Definition classify_acceleration (data : mtb_bmi160_data_t) : orientation_t :=
  let abs_x := to_uint16 (abs (x (accel data))) in
  let abs_y := to_uint16 (abs (y (accel data))) in
  let abs_z := to_uint16 (abs (z (accel data))) in
  if (abs_z >? abs_x) && (abs_z >? abs_y) then
    if z (accel data) <? 0 then ORIENTATION_DISP_DOWN
    else ORIENTATION_DISP_UP
  else if (abs_y >? abs_x) && (abs_y >? abs_z) then
    if y (accel data) >? 0 then ORIENTATION_BOTTOM_EDGE
    else ORIENTATION_TOP_EDGE
  else
    if x (accel data) <? 0 then ORIENTATION_RIGHT_EDGE
    else ORIENTATION_LEFT_EDGE.

(** Lines 230-251: the [switch] that prints the orientation.  The
    [ORIENTATION_DISP_DOWN] case has no [break] and falls into [default],
    which only breaks. *)
Definition print_orientation (orientation : orientation_t) : task unit :=
  match orientation with
  | ORIENTATION_TOP_EDGE => printf fmt_top_edge []
  | ORIENTATION_BOTTOM_EDGE => printf fmt_bottom_edge []
  | ORIENTATION_LEFT_EDGE => printf fmt_left_edge []
  | ORIENTATION_RIGHT_EDGE => printf fmt_right_edge []
  | ORIENTATION_DISP_UP => printf fmt_disp_up []
  | ORIENTATION_DISP_DOWN => (printf fmt_disp_down [] ;; ret tt)
  | ORIENTATION_NULL => ret tt
  end.

(** Lines 323-334.  [xTaskNotifyFromISR] with [eNoAction] leaves the
    notification value alone and marks a notification pending (see
    [xTaskNotifyWait] below for the model of the notification);
    [portYIELD_FROM_ISR] asks for a context switch on return and touches
    nothing the task reads. *)
Definition motionsensor_interrupt_handler : task unit :=
  fun w =>
    let w1 := log EvNotifyFromISR (set_pending true w) in
    (Ret tt, log EvYieldFromISR w1).

(** Modelled from the spec: the FreeRTOS task notification, whose code is
    kernel code outside this repository.  It is the single-slot wake
    signal of the specification: a send marks one notification pending,
    further sends before a receive change nothing, and a receive,
    [xTaskNotifyWait(0, 0, NULL, portMAX_DELAY)], returns and clears the
    slot when a notification is pending and otherwise leaves the task
    blocked in the call ([None]). *)
Definition xTaskNotifyWait (w : world) : option world :=
  if notify_pending w
  then Some (log EvNotifyWaitReturn (set_pending false w))
  else None.

Section Firmware.

(** [BMI160_E_NULL_PTR] comes from the vendor's BMI160 header. *)
Variable BMI160_E_NULL_PTR : cy_rslt_t.

Variable hw : hardware.

Definition xSemaphoreCreateBinary : task bool :=
  fun w => if semaphore_created hw
           then (Ret true, set_semaphore (Some false) w)
           else (Ret false, set_semaphore None w).

Definition bus_call (op : bus_op) (rslt : cy_rslt_t) : task cy_rslt_t :=
  fun w => (Ret rslt, log (EvBus op) w).

Definition cyhal_i2c_init : task cy_rslt_t :=
  bus_call I2C_INIT (cyhal_i2c_init_rslt hw).
Definition cyhal_i2c_configure : task cy_rslt_t :=
  bus_call I2C_CONFIGURE (cyhal_i2c_configure_rslt hw).
Definition mtb_bmi160_init_i2c : task cy_rslt_t :=
  bus_call BMI160_INIT_I2C (mtb_bmi160_init_i2c_rslt hw).
Definition mtb_bmi160_config_int : task cy_rslt_t :=
  bus_call BMI160_CONFIG_INT (mtb_bmi160_config_int_rslt hw).

Definition mtb_bmi160_read : task (cy_rslt_t * mtb_bmi160_data_t) :=
  fun w => (Ret (mtb_bmi160_read_rslt hw (reads_done w)),
            log (EvBus BMI160_READ) (count_read w)).

(** Lines 275-306. *)
Definition motionsensor_init : task cy_rslt_t :=
  xSemaphoreTake ;;
  result <- cyhal_i2c_init ;;
  CHECK_RESULT result fmt_i2c_init_failed [result] ;;
  result <- cyhal_i2c_configure ;;
  CHECK_RESULT result fmt_i2c_configure_failed [result] ;;
  result <- mtb_bmi160_init_i2c ;;
  xSemaphoreGive ;;
  ret result.

(** Lines 352-410; the fields of [int_config] are constants handed to
    the driver and play no part in the control flow. *)
Definition motionsensor_config_interrupt : task cy_rslt_t :=
  xSemaphoreTake ;;
  result <- mtb_bmi160_config_int ;;
  xSemaphoreGive ;;
  ret result.

(** Lines 431-521.  [orientation_result] is [None] for the NULL pointer
    and [Some v] for a pointer to a variable holding [v]; the second
    component of the value is what that variable holds on return. *)
Definition motionsensor_update_orientation
    (orientation_result : option orientation_t)
  : task (cy_rslt_t * option orientation_t) :=
  match orientation_result with
  | None => ret (BMI160_E_NULL_PTR, None)
  | Some _ =>
      let cleared := ORIENTATION_NULL in
      xSemaphoreTake ;;
      rd <- mtb_bmi160_read ;;
      xSemaphoreGive ;;
      if fst rd =? CY_RSLT_SUCCESS
      then ret (fst rd, Some (classify_acceleration (snd rd)))
      else ret (fst rd, Some cleared)
  end.

(** Lines 199-219 of [task_motion]: everything before the loop. *)
Definition task_motion_setup : task unit :=
  printf fmt_clear [] ;;
  printf fmt_rule [] ;;
  printf fmt_title [] ;;
  printf fmt_rule [] ;;
  created <- xSemaphoreCreateBinary ;;
  CHECK_RESULT (if created then 0 else 1) fmt_semaphore_failed [] ;;
  xSemaphoreGive ;;
  result <- motionsensor_init ;;
  CHECK_RESULT result fmt_init_failed [result] ;;
  printf fmt_init_ok [] ;;
  result <- motionsensor_config_interrupt ;;
  CHECK_RESULT result fmt_config_failed [result] ;;
  printf fmt_config_ok [].

(** Lines 223-251: one pass of the loop body up to the call of
    [xTaskNotifyWait].  [orientation] is the task's local variable. *)
Definition task_motion_cycle (orientation : orientation_t)
  : task orientation_t :=
  r <- motionsensor_update_orientation (Some orientation) ;;
  let orientation' := match snd r with Some o => o | None => orientation end in
  CHECK_RESULT (fst r) fmt_read_failed [fst r] ;;
  print_orientation orientation' ;;
  ret orientation'.

(** *** The task under a schedule

    The task is cut at the points where the kernel can keep it from
    running.  [orientation] travels with the control point because it is
    a local variable of [task_motion]; it is not initialized on entry, so
    [AtEntry] carries whatever the stack holds.  Nothing in the
    repository resumes the task, so a task stopped by [vTaskSuspend]
    never runs again. *)
Inductive control : Type :=
| AtEntry (orientation : orientation_t)
| AtLoopTop (orientation : orientation_t)
| AtNotifyWait (orientation : orientation_t)
| Stopped (r : stop_reason).

Definition task_motion (c : control) (w : world) : control * world :=
  match c with
  | AtEntry o =>
      match task_motion_setup w with
      | (Ret _, w') => (AtLoopTop o, w')
      | (Stop r, w') => (Stopped r, w')
      end
  | AtLoopTop o =>
      match task_motion_cycle o w with
      | (Ret o', w') => (AtNotifyWait o', w')
      | (Stop r, w') => (Stopped r, w')
      end
  | AtNotifyWait o =>
      match xTaskNotifyWait w with
      | Some w' => (AtLoopTop o, w')
      | None => (AtNotifyWait o, w)
      end
  | Stopped r => (Stopped r, w)
  end.

(** What the processor does next: serve the sensor's interrupt, or let
    the sensing task run to its next control point.  The handler writes
    only the notification slot, which the task reads only in
    [xTaskNotifyWait], so an interrupt in the middle of a pass acts like
    one just before or just after it.  A schedule may serve the interrupt
    at any time, also before [mtb_bmi160_config_int] has registered the
    handler; the board can do less, never more. *)
Inductive slot : Type := Irq | Run.

Definition step (s : slot) (cw : control * world) : control * world :=
  match s with
  | Irq => (fst cw, snd (motionsensor_interrupt_handler (snd cw)))
  | Run => task_motion (fst cw) (snd cw)
  end.

Fixpoint run (sched : list slot) (cw : control * world) : control * world :=
  match sched with
  | [] => cw
  | s :: rest => run rest (step s cw)
  end.

End Firmware.

(** The world before the scheduler starts the task. *)
Definition boot : world := mk_world None false 0 [].

(** ** Observations on traces *)

Definition count_events (p : event -> bool) (evs : list event) : nat :=
  List.length (filter p evs).

Definition is_wake (e : event) : bool :=
  match e with EvNotifyWaitReturn => true | _ => false end.

Definition is_firing (e : event) : bool :=
  match e with EvNotifyFromISR => true | _ => false end.

(** Wake notifications delivered to the task, and interrupts served. *)
Definition deliveries (w : world) : nat := count_events is_wake (trace w).
Definition firings (w : world) : nat := count_events is_firing (trace w).

(** The events of [n] consecutive runs of the interrupt handler. *)
Fixpoint isr_events (n : nat) : list event :=
  match n with
  | O => []
  | S k => EvNotifyFromISR :: EvYieldFromISR :: isr_events k
  end.

(** An event that is neither output, nor a bus or semaphore operation. *)
Definition silent (e : event) : Prop :=
  is_printf e = false /\ is_bus_operation e = false /\
  is_semaphore_operation e = false.

(** A [printf] that carries an argument for a conversion. *)
Definition prints_a_code (e : event) : bool :=
  match e with
  | EvPrintf _ (_ :: _) => true
  | _ => false
  end.

(** The four lines printed on entry of [task_motion]. *)
Definition banner : list event :=
  [EvPrintf fmt_clear []; EvPrintf fmt_rule []; EvPrintf fmt_title [];
   EvPrintf fmt_rule []].

(** What [print_orientation] writes for an orientation. *)
Definition orientation_output (o : orientation_t) : list event :=
  trace (snd (print_orientation o boot)).

(** The pending flag after [n] runs of the interrupt handler. *)
Definition pending_after (n : nat) (p : bool) : bool :=
  match n with O => p | S _ => true end.

Definition irq_count (sched : list slot) : nat :=
  List.length (filter (fun s => match s with Irq => true | Run => false end) sched).

(** [a] interrupts, a loop pass, [b] more interrupts, and then the task
    is scheduled at least twice: the interrupts reach a task that is busy
    with a sample. *)
Definition busy_schedule (a b m : nat) : list slot :=
  repeat Irq a ++ [Run] ++ repeat Irq b ++ repeat Run (S (S m)).

(** The semaphore is free whenever the task is between two bus
    operations of its loop. *)
Definition guard_free (cw : control * world) : Prop :=
  match fst cw with
  | AtLoopTop _ | AtNotifyWait _ => i2c_semaphore (snd cw) = Some true
  | AtEntry _ | Stopped _ => True
  end.

(** Wakes delivered plus the one that may be pending. *)
Definition wakes_owed (w : world) : nat :=
  (deliveries w + if notify_pending w then 1 else 0)%nat.

(** ** Fatal conditions

    [fatal hw c w fmt args]: the task at control point [c] in world [w] on
    board [hw] is about to meet a failure, for which it prints [fmt] with
    [args]. *)
Inductive fatal (hw : hardware) : control -> world -> string -> list Z -> Prop :=
| fatal_semaphore (o : orientation_t) (w : world) :
    semaphore_created hw = false ->
    fatal hw (AtEntry o) w fmt_semaphore_failed []
| fatal_i2c_init (o : orientation_t) (w : world) :
    semaphore_created hw = true ->
    cyhal_i2c_init_rslt hw <> CY_RSLT_SUCCESS ->
    fatal hw (AtEntry o) w fmt_i2c_init_failed [cyhal_i2c_init_rslt hw]
| fatal_i2c_configure (o : orientation_t) (w : world) :
    semaphore_created hw = true ->
    cyhal_i2c_init_rslt hw = CY_RSLT_SUCCESS ->
    cyhal_i2c_configure_rslt hw <> CY_RSLT_SUCCESS ->
    fatal hw (AtEntry o) w fmt_i2c_configure_failed [cyhal_i2c_configure_rslt hw]
| fatal_sensor_init (o : orientation_t) (w : world) :
    semaphore_created hw = true ->
    cyhal_i2c_init_rslt hw = CY_RSLT_SUCCESS ->
    cyhal_i2c_configure_rslt hw = CY_RSLT_SUCCESS ->
    mtb_bmi160_init_i2c_rslt hw <> CY_RSLT_SUCCESS ->
    fatal hw (AtEntry o) w fmt_init_failed [mtb_bmi160_init_i2c_rslt hw]
| fatal_interrupt_config (o : orientation_t) (w : world) :
    semaphore_created hw = true ->
    cyhal_i2c_init_rslt hw = CY_RSLT_SUCCESS ->
    cyhal_i2c_configure_rslt hw = CY_RSLT_SUCCESS ->
    mtb_bmi160_init_i2c_rslt hw = CY_RSLT_SUCCESS ->
    mtb_bmi160_config_int_rslt hw <> CY_RSLT_SUCCESS ->
    fatal hw (AtEntry o) w fmt_config_failed [mtb_bmi160_config_int_rslt hw]
| fatal_read (o : orientation_t) (w : world) :
    i2c_semaphore w = Some true ->
    fst (mtb_bmi160_read_rslt hw (reads_done w)) <> CY_RSLT_SUCCESS ->
    fatal hw (AtLoopTop o) w fmt_read_failed
          [fst (mtb_bmi160_read_rslt hw (reads_done w))].

(** ** Boards used in the examples *)

Definition reading (ax ay az : Z) : mtb_bmi160_data_t :=
  mk_data (mk_sensor_data ax ay az) (mk_sensor_data 0 0 0).

(** A board on which every call succeeds and the sensor always reads
    the same sample. *)
Definition steady_board (ax ay az : Z) : hardware :=
  mk_hardware true 0 0 0 0 (fun _ => (CY_RSLT_SUCCESS, reading ax ay az)).

(** A board that fails in one place with result code [code]. *)
Definition no_semaphore_board : hardware :=
  mk_hardware false 0 0 0 0 (fun _ => (CY_RSLT_SUCCESS, reading 10 20 900)).
Definition i2c_dead_board (code : cy_rslt_t) : hardware :=
  mk_hardware true code 0 0 0 (fun _ => (CY_RSLT_SUCCESS, reading 10 20 900)).
Definition sensor_absent_board (code : cy_rslt_t) : hardware :=
  mk_hardware true 0 0 code 0 (fun _ => (CY_RSLT_SUCCESS, reading 10 20 900)).
Definition read_error_board (code : cy_rslt_t) : hardware :=
  mk_hardware true 0 0 0 0 (fun _ => (code, reading 0 0 0)).

(** A board whose sensor is turned between two reads: face up first, then
    bottom edge up. *)
Definition turning_board : hardware :=
  mk_hardware true 0 0 0 0
    (fun n => match n with
              | O => (CY_RSLT_SUCCESS, reading 10 20 900)
              | _ => (CY_RSLT_SUCCESS, reading 50 700 100)
              end).

(** The world once [task_motion_setup] has given the fresh semaphore. *)
Definition idle : world := mk_world (Some true) false 0 [].

(** The value of [BMI160_E_NULL_PTR] used in the examples: [-1] converted
    to the 32-bit result type. *)
Definition example_null_ptr : cy_rslt_t := 4294967295.

(** ** Further observations on runs *)

Definition is_sensor_read (e : event) : bool :=
  match e with EvBus BMI160_READ => true | _ => false end.

(** The orientation lines on the console, in the order printed. *)
Definition reports (w : world) : list event :=
  filter is_orientation_report (trace w).

(** The calls of [mtb_bmi160_read] made so far. *)
Definition sensor_reads (w : world) : nat :=
  count_events is_sensor_read (trace w).

(** Replays a trace and tells whether the task holds the semaphore at its
    end.  The replay fails with [None] when a bus operation is made
    without the semaphore or the semaphore is taken while held. *)
Fixpoint bus_discipline (holding : bool) (evs : list event) : option bool :=
  match evs with
  | [] => Some holding
  | EvSemTake :: rest =>
      if holding then None else bus_discipline true rest
  | EvSemGive :: rest => bus_discipline false rest
  | EvBus _ :: rest =>
      if holding then bus_discipline true rest else None
  | _ :: rest => bus_discipline holding rest
  end.

(** The semaphore exists and the four start-up calls succeed. *)
Definition all_succeed (hw : hardware) : bool :=
  semaphore_created hw
  && (cyhal_i2c_init_rslt hw =? CY_RSLT_SUCCESS)
  && (cyhal_i2c_configure_rslt hw =? CY_RSLT_SUCCESS)
  && (mtb_bmi160_init_i2c_rslt hw =? CY_RSLT_SUCCESS)
  && (mtb_bmi160_config_int_rslt hw =? CY_RSLT_SUCCESS).

(** The orientation lines for the first [n] samples of the board. *)
Fixpoint expected_reports (hw : hardware) (n : nat) : list event :=
  match n with
  | O => []
  | S k =>
      expected_reports hw k
      ++ orientation_output
           (classify_acceleration (snd (mtb_bmi160_read_rslt hw k)))
  end.

(** [o] is the classification of the sample read last, when there is one. *)
Definition latest (hw : hardware) (o : orientation_t) (n : nat) : Prop :=
  match n with
  | O => True
  | S k =>
      fst (mtb_bmi160_read_rslt hw k) = CY_RSLT_SUCCESS
      /\ o = classify_acceleration (snd (mtb_bmi160_read_rslt hw k))
  end.

(** The first [n] reads of the board succeed. *)
Definition reads_succeed (hw : hardware) (n : nat) : Prop :=
  forall k : nat,
    (k < n)%nat -> fst (mtb_bmi160_read_rslt hw k) = CY_RSLT_SUCCESS.

(** What holds of every state the task reaches from [boot]. *)
Definition settled (hw : hardware) (cw : control * world) : Prop :=
  sensor_reads (snd cw) = reads_done (snd cw)
  /\ (exists h : bool,
        bus_discipline false (trace (snd cw)) = Some h
        /\ match fst cw with Stopped _ => True | _ => h = false end)
  /\ match fst cw with
     | AtEntry _ =>
         reads_done (snd cw) = O /\ deliveries (snd cw) = O
         /\ reports (snd cw) = []
     | AtLoopTop o =>
         all_succeed hw = true /\ i2c_semaphore (snd cw) = Some true
         /\ reads_done (snd cw) = deliveries (snd cw)
         /\ reports (snd cw) = expected_reports hw (reads_done (snd cw))
         /\ latest hw o (reads_done (snd cw))
         /\ reads_succeed hw (reads_done (snd cw))
     | AtNotifyWait o =>
         all_succeed hw = true /\ i2c_semaphore (snd cw) = Some true
         /\ reads_done (snd cw) = S (deliveries (snd cw))
         /\ reports (snd cw) = expected_reports hw (reads_done (snd cw))
         /\ latest hw o (reads_done (snd cw))
         /\ reads_succeed hw (reads_done (snd cw))
     | Stopped r =>
         r = Suspended
         /\ (reads_done (snd cw) <= S (deliveries (snd cw)))%nat
         /\ (reads_done (snd cw) <> O ->
             all_succeed hw = true
             /\ fst (mtb_bmi160_read_rslt hw (Nat.pred (reads_done (snd cw))))
                <> CY_RSLT_SUCCESS)
         /\ reports (snd cw)
            = expected_reports hw (Nat.pred (reads_done (snd cw)))
         /\ reads_succeed hw (Nat.pred (reads_done (snd cw)))
     end.

(** The driver calls [task_motion_setup] gets to make on a board: each
    one only after all the earlier ones succeeded. *)
Definition attempted_bus_ops (hw : hardware) : list bus_op :=
  if negb (semaphore_created hw) then []
  else if negb (cyhal_i2c_init_rslt hw =? CY_RSLT_SUCCESS) then [I2C_INIT]
  else if negb (cyhal_i2c_configure_rslt hw =? CY_RSLT_SUCCESS)
       then [I2C_INIT; I2C_CONFIGURE]
  else if negb (mtb_bmi160_init_i2c_rslt hw =? CY_RSLT_SUCCESS)
       then [I2C_INIT; I2C_CONFIGURE; BMI160_INIT_I2C]
  else [I2C_INIT; I2C_CONFIGURE; BMI160_INIT_I2C; BMI160_CONFIG_INT].

Definition bus_ops_of (evs : list event) : list bus_op :=
  flat_map (fun e => match e with EvBus op => [op] | _ => [] end) evs.

(** The orientation with the same axis and the other sign. *)
Definition opposite (o : orientation_t) : orientation_t :=
  match o with
  | ORIENTATION_NULL => ORIENTATION_NULL
  | ORIENTATION_TOP_EDGE => ORIENTATION_BOTTOM_EDGE
  | ORIENTATION_BOTTOM_EDGE => ORIENTATION_TOP_EDGE
  | ORIENTATION_LEFT_EDGE => ORIENTATION_RIGHT_EDGE
  | ORIENTATION_RIGHT_EDGE => ORIENTATION_LEFT_EDGE
  | ORIENTATION_DISP_UP => ORIENTATION_DISP_DOWN
  | ORIENTATION_DISP_DOWN => ORIENTATION_DISP_UP
  end.

(** The acceleration multiplied by [k] on every axis; [k = -1] is the
    board turned upside down. *)
Definition scale_acceleration (k : Z) (data : mtb_bmi160_data_t)
  : mtb_bmi160_data_t :=
  mk_data (mk_sensor_data (k * x (accel data)) (k * y (accel data))
                          (k * z (accel data)))
          (gyro data).

(** ** Task creation (motion_task.c, lines 164-172) *)

(** Conversion to the 32-bit unsigned [cy_rslt_t]. *)
Definition to_uint32 (v : Z) : Z := v mod 4294967296.

(** [BaseType_t] is a 32-bit signed integer on this processor. *)
Definition int32_range (v : Z) : Prop := -2147483648 <= v <= 2147483647.

(** [status] is what [xTaskCreate] returned; [pdPASS] is the kernel's
    macro for success. *)
Definition create_motion_sensor_task (pdPASS : Z) (status : Z) : cy_rslt_t :=
  if status =? pdPASS then CY_RSLT_SUCCESS else to_uint32 status.

(** ** Waiting for the user button (tft_task.c, lines 142-149)

    [cyhal_gpio_read k] is the level of [CYBSP_USER_BTN] at the [k]-th
    read since the call; [CYBSP_BTN_PRESSED] and [CYBSP_BTN_OFF] are the
    board support package's macros for the two levels.  Each of the two
    loops gets [fuel] iterations; the value is the number of reads made
    when the function returns. *)
Section UserButton.

Variable CYBSP_BTN_PRESSED : Z.
Variable CYBSP_BTN_OFF : Z.
Variable cyhal_gpio_read : nat -> bool.

(** [while (cyhal_gpio_read(CYBSP_USER_BTN) != CYBSP_BTN_PRESSED);] *)
Fixpoint wait_until_pressed (fuel : nat) (k : nat) : option nat :=
  match fuel with
  | O => None
  | S f =>
      if negb (Z.b2z (cyhal_gpio_read k) =? CYBSP_BTN_PRESSED)
      then wait_until_pressed f (S k)
      else Some (S k)
  end.

(** [while (cyhal_gpio_read(CYBSP_USER_BTN) == CYBSP_BTN_OFF);] *)
Fixpoint wait_while_off (fuel : nat) (k : nat) : option nat :=
  match fuel with
  | O => None
  | S f =>
      if Z.b2z (cyhal_gpio_read k) =? CYBSP_BTN_OFF
      then wait_while_off f (S k)
      else Some (S k)
  end.

Definition wait_for_switch_press_and_release (fuel : nat) : option nat :=
  match wait_until_pressed fuel O with
  | Some k => wait_while_off fuel k
  | None => None
  end.

End UserButton.

(** A button that is up for three reads and then held down. *)
Definition held_button (k : nat) : bool := (k <? 3)%nat.

(** * Properties *)

(** ** Arithmetic of the magnitudes *)

Lemma to_uint16_abs (v : Z) : int16_range v -> to_uint16 (abs v) = Z.abs v.
Proof.
  unfold int16_range, to_uint16, abs. intros Hv.
  apply Z.mod_small. lia.
Qed.

(** On 16-bit samples the classifier compares the mathematical magnitudes. *)
Lemma classify_acceleration_int16 (data : mtb_bmi160_data_t) :
  int16_sample (accel data) ->
  classify_acceleration data =
    let s := accel data in
    if (Z.abs (z s) >? Z.abs (x s)) && (Z.abs (z s) >? Z.abs (y s)) then
      if z s <? 0 then ORIENTATION_DISP_DOWN else ORIENTATION_DISP_UP
    else if (Z.abs (y s) >? Z.abs (x s)) && (Z.abs (y s) >? Z.abs (z s)) then
      if y s >? 0 then ORIENTATION_BOTTOM_EDGE else ORIENTATION_TOP_EDGE
    else
      if x s <? 0 then ORIENTATION_RIGHT_EDGE else ORIENTATION_LEFT_EDGE.
Proof.
  intros (Hx & Hy & Hz). unfold classify_acceleration. cbv zeta.
  rewrite !to_uint16_abs by assumption. reflexivity.
Qed.

Lemma gtb_true (a b : Z) : a > b -> (a >? b) = true.
Proof. intros H. apply Z.gtb_lt. lia. Qed.

Lemma gtb_false (a b : Z) : a <= b -> (a >? b) = false.
Proof. intros H. destruct (Z.gtb_spec a b); [lia | reflexivity]. Qed.

Lemma classify_z_branch (data : mtb_bmi160_data_t) :
  int16_sample (accel data) ->
  Z.abs (z (accel data)) > Z.abs (x (accel data)) ->
  Z.abs (z (accel data)) > Z.abs (y (accel data)) ->
  classify_acceleration data =
    if z (accel data) <? 0 then ORIENTATION_DISP_DOWN else ORIENTATION_DISP_UP.
Proof.
  intros Hs Hzx Hzy. rewrite classify_acceleration_int16 by assumption.
  cbv zeta. rewrite (gtb_true _ _ Hzx), (gtb_true _ _ Hzy). reflexivity.
Qed.

Lemma classify_y_branch (data : mtb_bmi160_data_t) :
  int16_sample (accel data) ->
  Z.abs (y (accel data)) > Z.abs (x (accel data)) ->
  Z.abs (y (accel data)) > Z.abs (z (accel data)) ->
  classify_acceleration data =
    if y (accel data) >? 0 then ORIENTATION_BOTTOM_EDGE else ORIENTATION_TOP_EDGE.
Proof.
  intros Hs Hyx Hyz. rewrite classify_acceleration_int16 by assumption.
  cbv zeta. rewrite (gtb_false (Z.abs (z (accel data))) (Z.abs (y (accel data))))
    by lia.
  rewrite andb_false_r, (gtb_true _ _ Hyx), (gtb_true _ _ Hyz). reflexivity.
Qed.

Lemma classify_x_branch (data : mtb_bmi160_data_t) :
  int16_sample (accel data) ->
  ~ (Z.abs (z (accel data)) > Z.abs (x (accel data)) /\
     Z.abs (z (accel data)) > Z.abs (y (accel data))) ->
  ~ (Z.abs (y (accel data)) > Z.abs (x (accel data)) /\
     Z.abs (y (accel data)) > Z.abs (z (accel data))) ->
  classify_acceleration data =
    if x (accel data) <? 0 then ORIENTATION_RIGHT_EDGE else ORIENTATION_LEFT_EDGE.
Proof.
  intros Hs Hz Hy. rewrite classify_acceleration_int16 by assumption.
  cbv zeta.
  destruct (Z.gtb_spec (Z.abs (z (accel data))) (Z.abs (x (accel data))));
  destruct (Z.gtb_spec (Z.abs (z (accel data))) (Z.abs (y (accel data))));
  destruct (Z.gtb_spec (Z.abs (y (accel data))) (Z.abs (x (accel data))));
  destruct (Z.gtb_spec (Z.abs (y (accel data))) (Z.abs (z (accel data))));
  simpl; try reflexivity; exfalso; lia.
Qed.

(** The classifier never yields [ORIENTATION_NULL]. *)
Lemma classify_acceleration_concrete (data : mtb_bmi160_data_t) :
  classify_acceleration data <> ORIENTATION_NULL.
Proof.
  unfold classify_acceleration. cbv zeta.
  repeat match goal with
         | |- context [if ?b then _ else _] => destruct b
         end; discriminate.
Qed.

(** ** The bus operations, step by step *)

Lemma trace_three (t : list event) (a b c : event) :
  ((t ++ [a]) ++ [b]) ++ [c] = t ++ [a; b; c].
Proof. rewrite <- !app_assoc. reflexivity. Qed.

Section BusOperations.

Variable BMI160_E_NULL_PTR : cy_rslt_t.
Variable hw : hardware.

(** A read through a valid pointer with the semaphore free: the call
    returns, the semaphore is free again, one sample was consumed. *)
Lemma update_orientation_run (old : orientation_t) (w : world) :
  i2c_semaphore w = Some true ->
  motionsensor_update_orientation BMI160_E_NULL_PTR hw (Some old) w =
    (Ret (fst (mtb_bmi160_read_rslt hw (reads_done w)),
          Some (if fst (mtb_bmi160_read_rslt hw (reads_done w)) =? CY_RSLT_SUCCESS
                then classify_acceleration
                       (snd (mtb_bmi160_read_rslt hw (reads_done w)))
                else ORIENTATION_NULL)),
     mk_world (Some true) (notify_pending w) (S (reads_done w))
              (trace w ++ [EvSemTake; EvBus BMI160_READ; EvSemGive])).
Proof.
  intros Hsem.
  unfold motionsensor_update_orientation, bind, xSemaphoreTake,
    mtb_bmi160_read, xSemaphoreGive, ret.
  rewrite Hsem. simpl.
  destruct (fst (mtb_bmi160_read_rslt hw (reads_done w)) =? CY_RSLT_SUCCESS);
    unfold log; simpl; rewrite trace_three; reflexivity.
Qed.

Lemma config_interrupt_run (w : world) :
  i2c_semaphore w = Some true ->
  motionsensor_config_interrupt hw w =
    (Ret (mtb_bmi160_config_int_rslt hw),
     mk_world (Some true) (notify_pending w) (reads_done w)
              (trace w ++ [EvSemTake; EvBus BMI160_CONFIG_INT; EvSemGive])).
Proof.
  intros Hsem.
  unfold motionsensor_config_interrupt, bind, xSemaphoreTake,
    mtb_bmi160_config_int, bus_call, xSemaphoreGive, ret.
  rewrite Hsem. simpl. unfold log; simpl. rewrite trace_three. reflexivity.
Qed.

End BusOperations.

(** ** Classification through [motionsensor_update_orientation] *)

Section Classification.

Variable BMI160_E_NULL_PTR : cy_rslt_t.
Variable hw : hardware.

(** A successful read stores the classification of the sample read. *)
Lemma update_orientation_success
    (old : orientation_t) (w : world) (data : mtb_bmi160_data_t) :
  i2c_semaphore w = Some true ->
  mtb_bmi160_read_rslt hw (reads_done w) = (CY_RSLT_SUCCESS, data) ->
  fst (motionsensor_update_orientation BMI160_E_NULL_PTR hw (Some old) w) =
    Ret (CY_RSLT_SUCCESS, Some (classify_acceleration data)).
Proof.
  intros Hsem Hread.
  rewrite update_orientation_run by assumption.
  rewrite Hread. reflexivity.
Qed.

(** C1: when the magnitude of z exceeds those of x and y, a successful
    update stores ORIENTATION_DISP_DOWN for negative z and
    ORIENTATION_DISP_UP otherwise. *)
Theorem z_dominant_sample_is_face_down_or_up
    (old : orientation_t) (w : world) (data : mtb_bmi160_data_t) :
  i2c_semaphore w = Some true ->
  mtb_bmi160_read_rslt hw (reads_done w) = (CY_RSLT_SUCCESS, data) ->
  int16_sample (accel data) ->
  Z.abs (z (accel data)) > Z.abs (x (accel data)) ->
  Z.abs (z (accel data)) > Z.abs (y (accel data)) ->
  fst (motionsensor_update_orientation BMI160_E_NULL_PTR hw (Some old) w) =
    Ret (CY_RSLT_SUCCESS,
         Some (if z (accel data) <? 0
               then ORIENTATION_DISP_DOWN else ORIENTATION_DISP_UP)).
Proof.
  intros Hsem Hread Hs Hzx Hzy.
  rewrite (update_orientation_success old w data Hsem Hread).
  rewrite classify_z_branch by assumption. reflexivity.
Qed.

(** C3, as amended: an axis wins only with a strictly larger magnitude.
    The z branch is taken when the magnitude of z exceeds both others, the
    y branch when the magnitude of y exceeds both others, and a sample
    whose x magnitude is at least as large as the other two takes the x
    fallback, so every tie that involves the largest x goes to x. *)
Theorem strict_dominance_and_x_fallback
    (old : orientation_t) (w : world) (data : mtb_bmi160_data_t) :
  i2c_semaphore w = Some true ->
  mtb_bmi160_read_rslt hw (reads_done w) = (CY_RSLT_SUCCESS, data) ->
  int16_sample (accel data) ->
  (Z.abs (z (accel data)) > Z.abs (x (accel data)) ->
   Z.abs (z (accel data)) > Z.abs (y (accel data)) ->
   fst (motionsensor_update_orientation BMI160_E_NULL_PTR hw (Some old) w) =
     Ret (CY_RSLT_SUCCESS,
          Some (if z (accel data) <? 0
                then ORIENTATION_DISP_DOWN else ORIENTATION_DISP_UP)))
  /\
  (Z.abs (y (accel data)) > Z.abs (x (accel data)) ->
   Z.abs (y (accel data)) > Z.abs (z (accel data)) ->
   fst (motionsensor_update_orientation BMI160_E_NULL_PTR hw (Some old) w) =
     Ret (CY_RSLT_SUCCESS,
          Some (if y (accel data) >? 0
                then ORIENTATION_BOTTOM_EDGE else ORIENTATION_TOP_EDGE)))
  /\
  (Z.abs (x (accel data)) >= Z.abs (y (accel data)) ->
   Z.abs (x (accel data)) >= Z.abs (z (accel data)) ->
   fst (motionsensor_update_orientation BMI160_E_NULL_PTR hw (Some old) w) =
     Ret (CY_RSLT_SUCCESS,
          Some (if x (accel data) <? 0
                then ORIENTATION_RIGHT_EDGE else ORIENTATION_LEFT_EDGE))).
Proof.
  intros Hsem Hread Hs.
  rewrite (update_orientation_success old w data Hsem Hread).
  repeat split; intros H1 H2.
  - rewrite classify_z_branch by assumption. reflexivity.
  - rewrite classify_y_branch by assumption. reflexivity.
  - rewrite classify_x_branch by (assumption || lia). reflexivity.
Qed.

(** C4: a sample taken by neither the z test nor the y test of the code
    yields ORIENTATION_RIGHT_EDGE for negative x and ORIENTATION_LEFT_EDGE
    otherwise. *)
Theorem fallback_sample_is_right_or_left_edge
    (old : orientation_t) (w : world) (data : mtb_bmi160_data_t) :
  i2c_semaphore w = Some true ->
  mtb_bmi160_read_rslt hw (reads_done w) = (CY_RSLT_SUCCESS, data) ->
  int16_sample (accel data) ->
  ~ (Z.abs (z (accel data)) > Z.abs (x (accel data)) /\
     Z.abs (z (accel data)) > Z.abs (y (accel data))) ->
  ~ (Z.abs (y (accel data)) > Z.abs (x (accel data)) /\
     Z.abs (y (accel data)) > Z.abs (z (accel data))) ->
  fst (motionsensor_update_orientation BMI160_E_NULL_PTR hw (Some old) w) =
    Ret (CY_RSLT_SUCCESS,
         Some (if x (accel data) <? 0
               then ORIENTATION_RIGHT_EDGE else ORIENTATION_LEFT_EDGE)).
Proof.
  intros Hsem Hread Hs Hz Hy.
  rewrite (update_orientation_success old w data Hsem Hread).
  rewrite classify_x_branch by assumption. reflexivity.
Qed.

(** C10: with a valid output pointer and a failing read, the call returns
    the read's result and the output variable holds ORIENTATION_NULL,
    whatever it held before. *)
Theorem failed_read_leaves_orientation_null
    (old : orientation_t) (w : world) :
  i2c_semaphore w = Some true ->
  fst (mtb_bmi160_read_rslt hw (reads_done w)) <> CY_RSLT_SUCCESS ->
  fst (motionsensor_update_orientation BMI160_E_NULL_PTR hw (Some old) w) =
    Ret (fst (mtb_bmi160_read_rslt hw (reads_done w)), Some ORIENTATION_NULL).
Proof.
  intros Hsem Hfail.
  rewrite update_orientation_run by assumption. simpl.
  destruct (Z.eqb_spec (fst (mtb_bmi160_read_rslt hw (reads_done w)))
              CY_RSLT_SUCCESS) as [Heq | _]; [contradiction | reflexivity].
Qed.

End Classification.

(** Every tie between y and z above x takes the x branch. *)
Lemma y_z_tie_takes_x_branch (data : mtb_bmi160_data_t) :
  int16_sample (accel data) ->
  Z.abs (y (accel data)) = Z.abs (z (accel data)) ->
  Z.abs (y (accel data)) > Z.abs (x (accel data)) ->
  classify_acceleration data =
    if x (accel data) <? 0 then ORIENTATION_RIGHT_EDGE else ORIENTATION_LEFT_EDGE.
Proof.
  intros Hs Htie Hyx. apply classify_x_branch; [assumption | lia | lia].
Qed.

(** The five classification scenarios of the specification. *)
Example scenario_face_up :
  classify_acceleration (reading 10 20 900) = ORIENTATION_DISP_UP.
Proof. reflexivity. Qed.

Example scenario_face_down :
  classify_acceleration (reading 10 20 (-900)) = ORIENTATION_DISP_DOWN.
Proof. reflexivity. Qed.

Example scenario_bottom_edge :
  classify_acceleration (reading 50 700 100) = ORIENTATION_BOTTOM_EDGE.
Proof. reflexivity. Qed.

Example scenario_top_edge :
  classify_acceleration (reading 50 (-700) 100) = ORIENTATION_TOP_EDGE.
Proof. reflexivity. Qed.

Example scenario_right_edge :
  classify_acceleration (reading (-600) 50 100) = ORIENTATION_RIGHT_EDGE.
Proof. reflexivity. Qed.

Lemma int16_sample_small (ax ay az : Z) :
  -32768 <= ax <= 32767 -> -32768 <= ay <= 32767 -> -32768 <= az <= 32767 ->
  int16_sample (accel (reading ax ay az)).
Proof. intros Hx Hy Hz. repeat split; simpl; lia. Qed.

Lemma z_dominant_sample_is_face_down_or_up_witness :
  fst (motionsensor_update_orientation example_null_ptr
         (steady_board 10 20 (-900)) (Some ORIENTATION_TOP_EDGE) idle) =
    Ret (CY_RSLT_SUCCESS, Some ORIENTATION_DISP_DOWN).
Proof.
  apply (z_dominant_sample_is_face_down_or_up example_null_ptr
           (steady_board 10 20 (-900)) ORIENTATION_TOP_EDGE idle
           (reading 10 20 (-900))).
  - reflexivity.
  - reflexivity.
  - apply int16_sample_small; lia.
  - simpl; lia.
  - simpl; lia.
Defined.

Lemma strict_dominance_and_x_fallback_witness :
  fst (motionsensor_update_orientation example_null_ptr
         (steady_board 5 0 5) (Some ORIENTATION_NULL) idle) =
    Ret (CY_RSLT_SUCCESS, Some ORIENTATION_LEFT_EDGE).
Proof.
  apply (strict_dominance_and_x_fallback example_null_ptr
           (steady_board 5 0 5) ORIENTATION_NULL idle (reading 5 0 5)).
  - reflexivity.
  - reflexivity.
  - apply int16_sample_small; lia.
  - simpl; lia.
  - simpl; lia.
Defined.

Lemma fallback_sample_is_right_or_left_edge_witness :
  fst (motionsensor_update_orientation example_null_ptr
         (steady_board (-600) 50 100) (Some ORIENTATION_NULL) idle) =
    Ret (CY_RSLT_SUCCESS, Some ORIENTATION_RIGHT_EDGE).
Proof.
  apply (fallback_sample_is_right_or_left_edge example_null_ptr
           (steady_board (-600) 50 100) ORIENTATION_NULL idle
           (reading (-600) 50 100)).
  - reflexivity.
  - reflexivity.
  - apply int16_sample_small; lia.
  - simpl; lia.
  - simpl; lia.
Defined.

Lemma failed_read_leaves_orientation_null_witness :
  fst (motionsensor_update_orientation example_null_ptr
         (read_error_board 2) (Some ORIENTATION_DISP_UP) idle) =
    Ret (2, Some ORIENTATION_NULL).
Proof.
  apply (failed_read_leaves_orientation_null example_null_ptr
           (read_error_board 2) ORIENTATION_DISP_UP idle).
  - reflexivity.
  - simpl. discriminate.
Defined.

(** C3, as stated, fails: with x and z of equal magnitude above y the z
    axis is not chosen, and with x and y of equal magnitude above z the y
    axis is not chosen; both samples take the x fallback. *)
Lemma tie_precedence_counterexample :
  (Z.abs 5 >= Z.abs 5 /\ Z.abs 5 >= Z.abs 0 /\
   fst (motionsensor_update_orientation example_null_ptr
          (steady_board 5 0 5) (Some ORIENTATION_NULL) idle) =
     Ret (CY_RSLT_SUCCESS, Some ORIENTATION_LEFT_EDGE) /\
   ORIENTATION_LEFT_EDGE <> ORIENTATION_DISP_UP /\
   ORIENTATION_LEFT_EDGE <> ORIENTATION_DISP_DOWN)
  /\
  (Z.abs 5 >= Z.abs 5 /\ Z.abs 0 <= Z.abs 5 /\
   fst (motionsensor_update_orientation example_null_ptr
          (steady_board 5 5 0) (Some ORIENTATION_NULL) idle) =
     Ret (CY_RSLT_SUCCESS, Some ORIENTATION_LEFT_EDGE) /\
   ORIENTATION_LEFT_EDGE <> ORIENTATION_BOTTOM_EDGE /\
   ORIENTATION_LEFT_EDGE <> ORIENTATION_TOP_EDGE).
Proof.
  repeat split; try (simpl; lia); try discriminate.
Qed.

(** C2 at a sample where y and z have the same magnitude above x: the y
    test of the code is strict, the sample falls to the x branch and the
    code stores ORIENTATION_LEFT_EDGE although x is zero, where the claim
    gives ORIENTATION_BOTTOM_EDGE. *)
Theorem y_z_tie_falls_to_x_branch :
  Z.abs 5 > Z.abs 0 /\ Z.abs 5 >= Z.abs 5 /\
  ~ (Z.abs 5 > Z.abs 0 /\ Z.abs 5 > Z.abs 5) /\
  5 > 0 /\
  fst (motionsensor_update_orientation example_null_ptr
         (steady_board 0 5 5) (Some ORIENTATION_NULL) idle) =
    Ret (CY_RSLT_SUCCESS, Some ORIENTATION_LEFT_EDGE).
Proof.
  repeat split; try (simpl; lia).
Qed.

(** ** The task, step by step *)

Ltac flatten_trace :=
  repeat (progress (unfold log, set_semaphore, set_pending, count_read; simpl));
  repeat rewrite <- app_assoc; simpl.

Lemma print_orientation_run (o : orientation_t) (w : world) :
  print_orientation o w =
    (Ret tt,
     mk_world (i2c_semaphore w) (notify_pending w) (reads_done w)
              (trace w ++ orientation_output o)).
Proof.
  destruct w as [s p r t].
  destruct o; unfold print_orientation, orientation_output, printf, bind, ret;
    flatten_trace; rewrite ?app_nil_r; reflexivity.
Qed.

Lemma orientation_output_reports_once (o : orientation_t) :
  o <> ORIENTATION_NULL ->
  count_events is_orientation_report (orientation_output o) = 1%nat.
Proof.
  destruct o; intros Ho; try contradiction; vm_compute; reflexivity.
Qed.

Lemma orientation_output_is_one_printf (o : orientation_t) :
  o <> ORIENTATION_NULL ->
  exists fmt, orientation_output o = [EvPrintf fmt []] /\ In fmt orientation_formats.
Proof.
  destruct o; intros Ho; try contradiction;
    eexists; (split; [reflexivity | simpl; tauto]).
Qed.

Lemma count_events_app (p : event -> bool) (a b : list event) :
  count_events p (a ++ b) = (count_events p a + count_events p b)%nat.
Proof.
  unfold count_events. rewrite filter_app, length_app. reflexivity.
Qed.

Lemma orientation_output_no_isr (o : orientation_t) :
  count_events is_wake (orientation_output o) = 0%nat /\
  count_events is_firing (orientation_output o) = 0%nat.
Proof. destruct o; split; reflexivity. Qed.

Lemma isr_events_counts (n : nat) :
  count_events is_wake (isr_events n) = 0%nat /\
  count_events is_firing (isr_events n) = n.
Proof.
  induction n as [| n [IHw IHf]]; [split; reflexivity |].
  split; unfold count_events in *; simpl; [assumption | now rewrite IHf].
Qed.

Lemma isr_events_silent (n : nat) : Forall silent (isr_events n).
Proof.
  induction n as [| n IH]; simpl; repeat constructor; assumption.
Qed.

Section TaskSteps.

Variable BMI160_E_NULL_PTR : cy_rslt_t.
Variable hw : hardware.

Lemma init_run (w : world) :
  i2c_semaphore w = Some true ->
  motionsensor_init hw w =
    if cyhal_i2c_init_rslt hw =? CY_RSLT_SUCCESS then
      if cyhal_i2c_configure_rslt hw =? CY_RSLT_SUCCESS then
        (Ret (mtb_bmi160_init_i2c_rslt hw),
         mk_world (Some true) (notify_pending w) (reads_done w)
           (trace w ++ [EvSemTake; EvBus I2C_INIT; EvBus I2C_CONFIGURE;
                        EvBus BMI160_INIT_I2C; EvSemGive]))
      else
        (Stop Suspended,
         mk_world (Some false) (notify_pending w) (reads_done w)
           (trace w ++ [EvSemTake; EvBus I2C_INIT; EvBus I2C_CONFIGURE;
                        EvPrintf fmt_i2c_configure_failed
                                 [cyhal_i2c_configure_rslt hw]]))
    else
      (Stop Suspended,
       mk_world (Some false) (notify_pending w) (reads_done w)
         (trace w ++ [EvSemTake; EvBus I2C_INIT;
                      EvPrintf fmt_i2c_init_failed [cyhal_i2c_init_rslt hw]])).
Proof.
  intros Hsem.
  unfold motionsensor_init, bind, xSemaphoreTake, cyhal_i2c_init,
    cyhal_i2c_configure, mtb_bmi160_init_i2c, bus_call, CHECK_RESULT,
    xSemaphoreGive, printf, vTaskSuspend, ret, bind.
  rewrite Hsem. simpl.
  destruct (cyhal_i2c_init_rslt hw =? CY_RSLT_SUCCESS); simpl;
    [destruct (cyhal_i2c_configure_rslt hw =? CY_RSLT_SUCCESS); simpl |];
    flatten_trace; reflexivity.
Qed.

Lemma setup_run (w : world) :
  task_motion_setup hw w =
    if semaphore_created hw then
      if cyhal_i2c_init_rslt hw =? CY_RSLT_SUCCESS then
        if cyhal_i2c_configure_rslt hw =? CY_RSLT_SUCCESS then
          if mtb_bmi160_init_i2c_rslt hw =? CY_RSLT_SUCCESS then
            if mtb_bmi160_config_int_rslt hw =? CY_RSLT_SUCCESS then
              (Ret tt,
               mk_world (Some true) (notify_pending w) (reads_done w)
                 (trace w ++ banner ++
                  [EvSemGive; EvSemTake; EvBus I2C_INIT; EvBus I2C_CONFIGURE;
                   EvBus BMI160_INIT_I2C; EvSemGive; EvPrintf fmt_init_ok [];
                   EvSemTake; EvBus BMI160_CONFIG_INT; EvSemGive]
                  ++ [EvPrintf fmt_config_ok []]))
            else
              (Stop Suspended,
               mk_world (Some true) (notify_pending w) (reads_done w)
                 (trace w ++ banner ++
                  [EvSemGive; EvSemTake; EvBus I2C_INIT; EvBus I2C_CONFIGURE;
                   EvBus BMI160_INIT_I2C; EvSemGive; EvPrintf fmt_init_ok [];
                   EvSemTake; EvBus BMI160_CONFIG_INT; EvSemGive]
                  ++ [EvPrintf fmt_config_failed
                               [mtb_bmi160_config_int_rslt hw]]))
          else
            (Stop Suspended,
             mk_world (Some true) (notify_pending w) (reads_done w)
               (trace w ++ banner ++
                [EvSemGive; EvSemTake; EvBus I2C_INIT; EvBus I2C_CONFIGURE;
                 EvBus BMI160_INIT_I2C; EvSemGive]
                ++ [EvPrintf fmt_init_failed [mtb_bmi160_init_i2c_rslt hw]]))
        else
          (Stop Suspended,
           mk_world (Some false) (notify_pending w) (reads_done w)
             (trace w ++ banner ++
              [EvSemGive; EvSemTake; EvBus I2C_INIT; EvBus I2C_CONFIGURE]
              ++ [EvPrintf fmt_i2c_configure_failed
                           [cyhal_i2c_configure_rslt hw]]))
      else
        (Stop Suspended,
         mk_world (Some false) (notify_pending w) (reads_done w)
           (trace w ++ banner ++ [EvSemGive; EvSemTake; EvBus I2C_INIT]
            ++ [EvPrintf fmt_i2c_init_failed [cyhal_i2c_init_rslt hw]]))
    else
      (Stop Suspended,
       mk_world None (notify_pending w) (reads_done w)
         (trace w ++ banner ++ [] ++ [EvPrintf fmt_semaphore_failed []])).
Proof.
  unfold task_motion_setup, xSemaphoreCreateBinary.
  destruct (semaphore_created hw).
  - unfold bind, printf, CHECK_RESULT, xSemaphoreGive, ret.
    cbn beta iota delta [i2c_semaphore set_semaphore log Z.eqb CY_RSLT_SUCCESS
                         notify_pending reads_done trace].
    rewrite init_run by reflexivity.
    destruct (cyhal_i2c_init_rslt hw =? CY_RSLT_SUCCESS);
      [destruct (cyhal_i2c_configure_rslt hw =? CY_RSLT_SUCCESS) |];
      try (unfold vTaskSuspend, banner; flatten_trace; reflexivity).
    destruct (mtb_bmi160_init_i2c_rslt hw =? CY_RSLT_SUCCESS);
      [| unfold vTaskSuspend, banner; flatten_trace; reflexivity].
    cbn beta iota delta [i2c_semaphore set_semaphore log notify_pending
                         reads_done trace].
    rewrite config_interrupt_run by reflexivity.
    destruct (mtb_bmi160_config_int_rslt hw =? CY_RSLT_SUCCESS);
      unfold vTaskSuspend, banner; flatten_trace; reflexivity.
  - unfold CHECK_RESULT, bind, printf, vTaskSuspend, banner.
    cbn beta iota delta [Z.eqb CY_RSLT_SUCCESS]. flatten_trace. reflexivity.
Qed.

Lemma cycle_run (o : orientation_t) (w : world) :
  i2c_semaphore w = Some true ->
  task_motion_cycle BMI160_E_NULL_PTR hw o w =
    if fst (mtb_bmi160_read_rslt hw (reads_done w)) =? CY_RSLT_SUCCESS then
      (Ret (classify_acceleration (snd (mtb_bmi160_read_rslt hw (reads_done w)))),
       mk_world (Some true) (notify_pending w) (S (reads_done w))
         (trace w ++ [EvSemTake; EvBus BMI160_READ; EvSemGive] ++
          orientation_output
            (classify_acceleration (snd (mtb_bmi160_read_rslt hw (reads_done w))))))
    else
      (Stop Suspended,
       mk_world (Some true) (notify_pending w) (S (reads_done w))
         (trace w ++ [EvSemTake; EvBus BMI160_READ; EvSemGive] ++
          [EvPrintf fmt_read_failed
                    [fst (mtb_bmi160_read_rslt hw (reads_done w))]])).
Proof.
  intros Hsem. unfold task_motion_cycle. unfold bind at 1.
  rewrite update_orientation_run by assumption.
  cbn beta iota delta [fst snd]. unfold CHECK_RESULT.
  destruct (fst (mtb_bmi160_read_rslt hw (reads_done w)) =? CY_RSLT_SUCCESS).
  - unfold bind, ret. rewrite print_orientation_run.
    cbn beta iota delta [i2c_semaphore notify_pending reads_done trace].
    rewrite <- app_assoc. reflexivity.
  - unfold bind, printf, vTaskSuspend. flatten_trace. reflexivity.
Qed.

End TaskSteps.

(** ** The semaphore across the bus operations *)

Section BusGuard.

Variable BMI160_E_NULL_PTR : cy_rslt_t.
Variable hw : hardware.

(** Interrupt configuration and reading give the semaphore back whatever
    the driver answers. *)
Lemma config_interrupt_releases (w : world) :
  i2c_semaphore w = Some true ->
  i2c_semaphore (snd (motionsensor_config_interrupt hw w)) = Some true.
Proof. intros Hsem. rewrite config_interrupt_run by assumption. reflexivity. Qed.

Lemma update_orientation_releases (old : orientation_t) (w : world) :
  i2c_semaphore w = Some true ->
  i2c_semaphore
    (snd (motionsensor_update_orientation BMI160_E_NULL_PTR hw (Some old) w)) =
    Some true.
Proof. intros Hsem. rewrite update_orientation_run by assumption. reflexivity. Qed.

(** Initialization gives it back on the path that returns, also when the
    sensor driver reports a failure. *)
Lemma init_releases_when_it_returns (w w' : world) (r : cy_rslt_t) :
  i2c_semaphore w = Some true ->
  motionsensor_init hw w = (Ret r, w') ->
  i2c_semaphore w' = Some true /\ r = mtb_bmi160_init_i2c_rslt hw.
Proof.
  intros Hsem. rewrite init_run by assumption.
  destruct (cyhal_i2c_init_rslt hw =? CY_RSLT_SUCCESS);
    [destruct (cyhal_i2c_configure_rslt hw =? CY_RSLT_SUCCESS) |];
    intros Heq; inversion Heq; subst; split; reflexivity.
Qed.

(** A failure of either I2C call stops the task inside
    [motionsensor_init], before the give. *)
Lemma init_i2c_failure_keeps_semaphore (w : world) :
  i2c_semaphore w = Some true ->
  cyhal_i2c_init_rslt hw <> CY_RSLT_SUCCESS \/
  cyhal_i2c_configure_rslt hw <> CY_RSLT_SUCCESS ->
  fst (motionsensor_init hw w) = Stop Suspended /\
  i2c_semaphore (snd (motionsensor_init hw w)) = Some false.
Proof.
  intros Hsem Hfail. rewrite init_run by assumption.
  destruct (Z.eqb_spec (cyhal_i2c_init_rslt hw) CY_RSLT_SUCCESS);
    [| split; reflexivity].
  destruct (Z.eqb_spec (cyhal_i2c_configure_rslt hw) CY_RSLT_SUCCESS);
    [| split; reflexivity].
  destruct Hfail; contradiction.
Qed.

End BusGuard.

(** C5 at a board whose I2C block fails to initialize: the task takes the
    semaphore, prints the I2C error and is suspended inside
    [motionsensor_init]; the semaphore stays held, where the claim has it
    released on every path. *)
Theorem i2c_failure_suspends_task_holding_semaphore :
  motionsensor_init (i2c_dead_board 1) idle =
    (Stop Suspended,
     mk_world (Some false) false 0
       [EvSemTake; EvBus I2C_INIT; EvPrintf fmt_i2c_init_failed [1]]).
Proof. reflexivity. Qed.

(** ** The interrupt handler *)

(** C8: the handler returns in every world, having sent one notification
    to the task and asked for a context switch; it leaves the semaphore
    and the read count alone and produces no output, bus or semaphore
    event. *)
Theorem interrupt_handler_only_notifies (w : world) :
  motionsensor_interrupt_handler w =
    (Ret tt,
     mk_world (i2c_semaphore w) true (reads_done w)
              (trace w ++ [EvNotifyFromISR; EvYieldFromISR]))
  /\ count_events is_firing [EvNotifyFromISR; EvYieldFromISR] = 1%nat
  /\ Forall silent [EvNotifyFromISR; EvYieldFromISR].
Proof.
  split; [| split].
  - unfold motionsensor_interrupt_handler. flatten_trace. reflexivity.
  - reflexivity.
  - repeat constructor.
Qed.

(** ** Schedules *)

Section Scheduling.

Variable BMI160_E_NULL_PTR : cy_rslt_t.
Variable hw : hardware.

Lemma run_app (s1 s2 : list slot) (cw : control * world) :
  run BMI160_E_NULL_PTR hw (s1 ++ s2) cw =
    run BMI160_E_NULL_PTR hw s2 (run BMI160_E_NULL_PTR hw s1 cw).
Proof.
  revert cw. induction s1 as [| s s1 IH]; intros cw; simpl;
    [reflexivity | apply IH].
Qed.

Lemma pending_after_true (n : nat) : pending_after n true = true.
Proof. destruct n; reflexivity. Qed.

Lemma step_irq (c : control) (w : world) :
  step BMI160_E_NULL_PTR hw Irq (c, w) =
    (c, mk_world (i2c_semaphore w) true (reads_done w)
                 (trace w ++ isr_events 1)).
Proof.
  unfold step, motionsensor_interrupt_handler. flatten_trace. reflexivity.
Qed.

(** Interrupts alone leave the task where it is and set the pending flag. *)
Lemma run_irqs (n : nat) (c : control) (w : world) :
  run BMI160_E_NULL_PTR hw (repeat Irq n) (c, w) =
    (c, mk_world (i2c_semaphore w) (pending_after n (notify_pending w))
                 (reads_done w) (trace w ++ isr_events n)).
Proof.
  revert w. induction n as [| n IH]; intros w.
  - destruct w; simpl. rewrite app_nil_r. reflexivity.
  - cbn [repeat run]. rewrite step_irq, IH. simpl.
    rewrite pending_after_true, <- app_assoc. reflexivity.
Qed.

(** A stopped task stays stopped; only the interrupt handler still acts. *)
Lemma run_stopped (r : stop_reason) (sched : list slot) (w : world) :
  run BMI160_E_NULL_PTR hw sched (Stopped r, w) =
    (Stopped r,
     mk_world (i2c_semaphore w)
              (pending_after (irq_count sched) (notify_pending w))
              (reads_done w) (trace w ++ isr_events (irq_count sched))).
Proof.
  revert w. induction sched as [| s sched IH]; intros w.
  - destruct w; simpl. rewrite app_nil_r. reflexivity.
  - destruct s; cbn [run].
    + rewrite step_irq, IH. unfold irq_count. simpl.
      rewrite pending_after_true, <- app_assoc. reflexivity.
    + simpl. rewrite IH. reflexivity.
Qed.

(** A task blocked in [xTaskNotifyWait] without a pending notification
    does not move when it is scheduled. *)
Lemma run_blocked_in_wait (m : nat) (o : orientation_t) (w : world) :
  notify_pending w = false ->
  run BMI160_E_NULL_PTR hw (repeat Run m) (AtNotifyWait o, w) =
    (AtNotifyWait o, w).
Proof.
  intros Hp. induction m as [| m IH]; [reflexivity |].
  cbn [repeat run step fst snd task_motion]. unfold xTaskNotifyWait.
  rewrite Hp. exact IH.
Qed.

Lemma run_runs_stopped (m : nat) (r : stop_reason) (w : world) :
  run BMI160_E_NULL_PTR hw (repeat Run m) (Stopped r, w) = (Stopped r, w).
Proof.
  induction m as [| m IH]; [reflexivity |]. cbn [repeat run step]. exact IH.
Qed.

(** C7: a loop pass whose read succeeds reaches the wait with the
    classification of the sample just read, and the events it adds to the
    trace contain exactly one orientation report. *)
Theorem completed_cycle_reports_once
    (o : orientation_t) (w : world) (data : mtb_bmi160_data_t) :
  i2c_semaphore w = Some true ->
  mtb_bmi160_read_rslt hw (reads_done w) = (CY_RSLT_SUCCESS, data) ->
  fst (task_motion BMI160_E_NULL_PTR hw (AtLoopTop o) w) =
    AtNotifyWait (classify_acceleration data)
  /\ exists evs : list event,
       trace (snd (task_motion BMI160_E_NULL_PTR hw (AtLoopTop o) w)) =
         trace w ++ evs
       /\ evs = [EvSemTake; EvBus BMI160_READ; EvSemGive]
                ++ orientation_output (classify_acceleration data)
       /\ count_events is_orientation_report evs = 1%nat.
Proof.
  intros Hsem Hread. unfold task_motion.
  rewrite cycle_run by assumption. rewrite Hread. simpl.
  split; [reflexivity |].
  eexists. split; [reflexivity |]. split; [reflexivity |].
  change (EvSemTake :: EvBus BMI160_READ :: EvSemGive ::
          orientation_output (classify_acceleration data))
    with ([EvSemTake; EvBus BMI160_READ; EvSemGive]
          ++ orientation_output (classify_acceleration data)).
  rewrite count_events_app.
  rewrite orientation_output_reports_once
    by apply classify_acceleration_concrete.
  reflexivity.
Qed.

End Scheduling.

Lemma completed_cycle_reports_once_witness :
  fst (task_motion example_null_ptr (steady_board 50 700 100)
         (AtLoopTop ORIENTATION_NULL) idle) =
    AtNotifyWait ORIENTATION_BOTTOM_EDGE
  /\ exists evs : list event,
       trace (snd (task_motion example_null_ptr (steady_board 50 700 100)
                     (AtLoopTop ORIENTATION_NULL) idle)) = trace idle ++ evs
       /\ evs = [EvSemTake; EvBus BMI160_READ; EvSemGive]
                ++ orientation_output ORIENTATION_BOTTOM_EDGE
       /\ count_events is_orientation_report evs = 1%nat.
Proof.
  apply (completed_cycle_reports_once example_null_ptr
           (steady_board 50 700 100) ORIENTATION_NULL idle (reading 50 700 100)).
  - reflexivity.
  - reflexivity.
Defined.

(** ** Faults *)

Lemma eqb_success_false (r : cy_rslt_t) :
  r <> CY_RSLT_SUCCESS -> (r =? CY_RSLT_SUCCESS) = false.
Proof. intros H. apply Z.eqb_neq. exact H. Qed.

Section Faults.

Variable BMI160_E_NULL_PTR : cy_rslt_t.
Variable hw : hardware.

Lemma stopped_after_error
    (sched : list slot) (w w1 : world) (before : list event)
    (fmt : string) (args : list Z) :
  trace w1 = trace w ++ before ++ [EvPrintf fmt args] ->
  count_events is_orientation_report before = 0%nat ->
  fst (run BMI160_E_NULL_PTR hw sched (Stopped Suspended, w1)) =
    Stopped Suspended
  /\ (exists before after : list event,
        trace (snd (run BMI160_E_NULL_PTR hw sched (Stopped Suspended, w1))) =
          trace w ++ before ++ [EvPrintf fmt args] ++ after
        /\ count_events is_orientation_report before = 0%nat
        /\ Forall silent after).
Proof.
  intros Htrace Hquiet. rewrite run_stopped. split; [reflexivity |].
  exists before, (isr_events (irq_count sched)). cbn [snd trace].
  rewrite Htrace. repeat rewrite <- app_assoc.
  split; [reflexivity | split; [assumption | apply isr_events_silent]].
Qed.

(** C6, as amended: after any fatal condition the task is suspended for
    good.  The last thing it does is print the error line of the failed
    step, which carries the failing call's result code for an I2C, sensor
    initialization, interrupt configuration or read failure, and no code
    for a semaphore creation failure.  The failing step prints no
    orientation report, and whatever is scheduled afterwards adds only
    events of the interrupt handler: no output, no bus operation and no
    semaphore operation. *)
Theorem fatal_condition_stops_task
    (c : control) (w : world) (fmt : string) (args : list Z)
    (sched : list slot) :
  fatal hw c w fmt args ->
  fst (run BMI160_E_NULL_PTR hw (Run :: sched) (c, w)) = Stopped Suspended
  /\ (exists before after : list event,
        trace (snd (run BMI160_E_NULL_PTR hw (Run :: sched) (c, w))) =
          trace w ++ before ++ [EvPrintf fmt args] ++ after
        /\ count_events is_orientation_report before = 0%nat
        /\ Forall silent after)
  /\ ((fmt = fmt_semaphore_failed /\ args = [])
      \/ (In fmt error_formats_with_code
          /\ exists code : cy_rslt_t,
               code <> CY_RSLT_SUCCESS /\ args = [code])).
Proof.
  intros Hfatal. cbn [run step fst snd]. rewrite <- and_assoc.
  destruct Hfatal as
    [o w Hsem
    |o w Hsem Hi2c
    |o w Hsem Hi2c Hcfg
    |o w Hsem Hi2c Hcfg Hbmi
    |o w Hsem Hi2c Hcfg Hbmi Hint
    |o w Hfree Hread];
    unfold task_motion.
  - rewrite setup_run, Hsem. split.
    + apply (stopped_after_error sched w _ (banner ++ [])); reflexivity.
    + left. split; reflexivity.
  - rewrite setup_run, Hsem, (eqb_success_false _ Hi2c). split.
    + apply (stopped_after_error sched w _
               (banner ++ [EvSemGive; EvSemTake; EvBus I2C_INIT]));
        reflexivity.
    + right. split; [simpl; auto 10 |].
      eexists; split; [eassumption | reflexivity].
  - rewrite setup_run, Hsem, Hi2c, (eqb_success_false _ Hcfg). split.
    + apply (stopped_after_error sched w _
               (banner ++ [EvSemGive; EvSemTake; EvBus I2C_INIT;
                           EvBus I2C_CONFIGURE]));
        reflexivity.
    + right. split; [simpl; auto 10 |].
      eexists; split; [eassumption | reflexivity].
  - rewrite setup_run, Hsem, Hi2c, Hcfg, (eqb_success_false _ Hbmi). split.
    + apply (stopped_after_error sched w _
               (banner ++ [EvSemGive; EvSemTake; EvBus I2C_INIT;
                           EvBus I2C_CONFIGURE; EvBus BMI160_INIT_I2C;
                           EvSemGive]));
        reflexivity.
    + right. split; [simpl; auto 10 |].
      eexists; split; [eassumption | reflexivity].
  - rewrite setup_run, Hsem, Hi2c, Hcfg, Hbmi, (eqb_success_false _ Hint).
    split.
    + apply (stopped_after_error sched w _
               (banner ++ [EvSemGive; EvSemTake; EvBus I2C_INIT;
                           EvBus I2C_CONFIGURE; EvBus BMI160_INIT_I2C;
                           EvSemGive; EvPrintf fmt_init_ok [];
                           EvSemTake; EvBus BMI160_CONFIG_INT; EvSemGive]));
        reflexivity.
    + right. split; [simpl; auto 10 |].
      eexists; split; [eassumption | reflexivity].
  - rewrite cycle_run, (eqb_success_false _ Hread) by assumption. split.
    + apply (stopped_after_error sched w _
               [EvSemTake; EvBus BMI160_READ; EvSemGive]);
        reflexivity.
    + right. split; [simpl; auto 10 |].
      eexists; split; [eassumption | reflexivity].
Qed.

End Faults.

(** Scenario 6 of the specification: the sensor is absent, the driver
    reports it, and the task stops after the error line whatever is
    scheduled afterwards. *)
Lemma fatal_condition_stops_task_witness :
  fst (run example_null_ptr (sensor_absent_board 7) [Run; Irq; Run; Run]
         (AtEntry ORIENTATION_NULL, boot)) = Stopped Suspended
  /\ (exists before after : list event,
        trace (snd (run example_null_ptr (sensor_absent_board 7)
                      [Run; Irq; Run; Run] (AtEntry ORIENTATION_NULL, boot))) =
          trace boot ++ before ++ [EvPrintf fmt_init_failed [7]] ++ after
        /\ count_events is_orientation_report before = 0%nat
        /\ Forall silent after)
  /\ ((fmt_init_failed = fmt_semaphore_failed /\ [7] = [])
      \/ (In fmt_init_failed error_formats_with_code
          /\ exists code : cy_rslt_t,
               code <> CY_RSLT_SUCCESS /\ [7] = [code])).
Proof.
  apply (fatal_condition_stops_task example_null_ptr (sensor_absent_board 7)
           (AtEntry ORIENTATION_NULL) boot fmt_init_failed [7]
           [Irq; Run; Run]).
  apply (fatal_sensor_init (sensor_absent_board 7) ORIENTATION_NULL boot).
  - reflexivity.
  - reflexivity.
  - reflexivity.
  - simpl. discriminate.
Defined.

(** C6, as stated, fails for the semaphore: when it cannot be created the
    task stops after a line that carries no error code; nothing it prints
    has an argument. *)
Lemma semaphore_failure_prints_no_code :
  run example_null_ptr no_semaphore_board [Run]
      (AtEntry ORIENTATION_NULL, boot) =
    (Stopped Suspended,
     mk_world None false 0 (banner ++ [EvPrintf fmt_semaphore_failed []]))
  /\ count_events prints_a_code
       (banner ++ [EvPrintf fmt_semaphore_failed []]) = 0%nat.
Proof. split; reflexivity. Qed.

(** ** Wake notifications *)

Section Wakes.

Variable BMI160_E_NULL_PTR : cy_rslt_t.
Variable hw : hardware.

Lemma pending_after_some (a b : nat) (p : bool) :
  (1 <= a + b)%nat -> pending_after b (pending_after a p) = true.
Proof. destruct a, b; simpl; intros H; try reflexivity; lia. Qed.

Lemma deliveries_app (s : option bool) (p : bool) (r : nat)
    (t evs : list event) :
  deliveries (mk_world s p r (t ++ evs)) =
    (count_events is_wake t + count_events is_wake evs)%nat.
Proof. unfold deliveries. simpl. apply count_events_app. Qed.

Lemma firings_app (s : option bool) (p : bool) (r : nat)
    (t evs : list event) :
  firings (mk_world s p r (t ++ evs)) =
    (count_events is_firing t + count_events is_firing evs)%nat.
Proof. unfold firings. simpl. apply count_events_app. Qed.

Lemma step_cycle (o : orientation_t) (w : world) :
  i2c_semaphore w = Some true ->
  step BMI160_E_NULL_PTR hw Run (AtLoopTop o, w) =
    if fst (mtb_bmi160_read_rslt hw (reads_done w)) =? CY_RSLT_SUCCESS then
      (AtNotifyWait
         (classify_acceleration (snd (mtb_bmi160_read_rslt hw (reads_done w)))),
       mk_world (Some true) (notify_pending w) (S (reads_done w))
         (trace w ++ [EvSemTake; EvBus BMI160_READ; EvSemGive] ++
          orientation_output
            (classify_acceleration (snd (mtb_bmi160_read_rslt hw (reads_done w))))))
    else
      (Stopped Suspended,
       mk_world (Some true) (notify_pending w) (S (reads_done w))
         (trace w ++ [EvSemTake; EvBus BMI160_READ; EvSemGive] ++
          [EvPrintf fmt_read_failed
                    [fst (mtb_bmi160_read_rslt hw (reads_done w))]])).
Proof.
  intros Hsem. cbn [step fst snd task_motion].
  rewrite cycle_run by assumption.
  destruct (fst (mtb_bmi160_read_rslt hw (reads_done w)) =? CY_RSLT_SUCCESS);
    reflexivity.
Qed.

Lemma step_wake (o : orientation_t) (w : world) :
  notify_pending w = true ->
  step BMI160_E_NULL_PTR hw Run (AtNotifyWait o, w) =
    (AtLoopTop o,
     mk_world (i2c_semaphore w) false (reads_done w)
              (trace w ++ [EvNotifyWaitReturn])).
Proof.
  intros Hp. cbn [step fst snd task_motion]. unfold xTaskNotifyWait.
  rewrite Hp. reflexivity.
Qed.

(** C9: [a] interrupts arrive before the task's loop pass and [b] after
    it, before the task reaches [xTaskNotifyWait], with at least one in
    all.  However often the task is scheduled afterwards, it is woken
    exactly once, which is at least once and at most as often as the
    interrupt fired.  After the wake it reads the sensor again, so two
    samples are consumed, and what it holds at the next wait is the
    classification of the second sample alone. *)
Theorem firings_while_busy_coalesce
    (a b m : nat) (o : orientation_t) (w : world) :
  (1 <= a + b)%nat ->
  i2c_semaphore w = Some true ->
  fst (mtb_bmi160_read_rslt hw (reads_done w)) = CY_RSLT_SUCCESS ->
  firings (snd (run BMI160_E_NULL_PTR hw (busy_schedule a b m) (AtLoopTop o, w)))
    = (firings w + (a + b))%nat
  /\ deliveries
       (snd (run BMI160_E_NULL_PTR hw (busy_schedule a b m) (AtLoopTop o, w)))
     = (deliveries w + 1)%nat
  /\ (1 <= deliveries
             (snd (run BMI160_E_NULL_PTR hw (busy_schedule a b m)
                       (AtLoopTop o, w)))
           - deliveries w <= a + b)%nat
  /\ notify_pending
       (snd (run BMI160_E_NULL_PTR hw (busy_schedule a b m) (AtLoopTop o, w)))
     = false
  /\ reads_done
       (snd (run BMI160_E_NULL_PTR hw (busy_schedule a b m) (AtLoopTop o, w)))
     = S (S (reads_done w))
  /\ fst (run BMI160_E_NULL_PTR hw (busy_schedule a b m) (AtLoopTop o, w)) =
       if fst (mtb_bmi160_read_rslt hw (S (reads_done w))) =? CY_RSLT_SUCCESS
       then AtNotifyWait
              (classify_acceleration
                 (snd (mtb_bmi160_read_rslt hw (S (reads_done w)))))
       else Stopped Suspended.
Proof.
  intros Hn Hsem Hread.
  remember (run BMI160_E_NULL_PTR hw (busy_schedule a b m) (AtLoopTop o, w))
    as final eqn:Hrun.
  assert (Hfinal :
    firings (snd final) = (firings w + (a + b))%nat
    /\ deliveries (snd final) = (deliveries w + 1)%nat
    /\ notify_pending (snd final) = false
    /\ reads_done (snd final) = S (S (reads_done w))
    /\ fst final =
         if fst (mtb_bmi160_read_rslt hw (S (reads_done w))) =? CY_RSLT_SUCCESS
         then AtNotifyWait
                (classify_acceleration
                   (snd (mtb_bmi160_read_rslt hw (S (reads_done w)))))
         else Stopped Suspended).
  { subst final. unfold busy_schedule. rewrite !run_app. rewrite run_irqs.
    cbn [run]. rewrite step_cycle by exact Hsem.
    cbn [reads_done notify_pending trace].
    rewrite Hread. cbn [Z.eqb CY_RSLT_SUCCESS]. cbv iota.
    rewrite run_irqs. cbn [i2c_semaphore reads_done notify_pending trace].
    cbn [repeat run].
    rewrite step_wake by (exact (pending_after_some a b _ Hn)).
    cbn [i2c_semaphore reads_done notify_pending trace].
    rewrite step_cycle by reflexivity.
    cbn [reads_done notify_pending trace].
    destruct (fst (mtb_bmi160_read_rslt hw (S (reads_done w)))
              =? CY_RSLT_SUCCESS);
      [rewrite run_blocked_in_wait by reflexivity | rewrite run_runs_stopped];
      cbn [fst snd];
      rewrite !firings_app, !deliveries_app, !count_events_app;
      rewrite ?(proj1 (orientation_output_no_isr _)),
              ?(proj2 (orientation_output_no_isr _)),
              ?(proj1 (isr_events_counts _)), ?(proj2 (isr_events_counts _));
      unfold firings, deliveries;
      cbn [count_events filter is_wake is_firing List.length];
      repeat split; try reflexivity; lia. }
  destruct Hfinal as (Hf & Hd & Hp & Hr & Hc).
  repeat split; try assumption; rewrite Hd; lia.
Qed.

End Wakes.

(** The sensor is turned while the task prints: three interrupts, one
    wake, and the second pass reports the new orientation. *)
Lemma firings_while_busy_coalesce_witness :
  firings (snd (run example_null_ptr turning_board (busy_schedule 2 1 1)
                    (AtLoopTop ORIENTATION_NULL, idle)))
    = (firings idle + (2 + 1))%nat
  /\ deliveries
       (snd (run example_null_ptr turning_board (busy_schedule 2 1 1)
                 (AtLoopTop ORIENTATION_NULL, idle)))
     = (deliveries idle + 1)%nat
  /\ (1 <= deliveries
             (snd (run example_null_ptr turning_board (busy_schedule 2 1 1)
                       (AtLoopTop ORIENTATION_NULL, idle)))
           - deliveries idle <= 2 + 1)%nat
  /\ notify_pending
       (snd (run example_null_ptr turning_board (busy_schedule 2 1 1)
                 (AtLoopTop ORIENTATION_NULL, idle)))
     = false
  /\ reads_done
       (snd (run example_null_ptr turning_board (busy_schedule 2 1 1)
                 (AtLoopTop ORIENTATION_NULL, idle)))
     = S (S (reads_done idle))
  /\ fst (run example_null_ptr turning_board (busy_schedule 2 1 1)
              (AtLoopTop ORIENTATION_NULL, idle)) =
       if fst (mtb_bmi160_read_rslt turning_board (S (reads_done idle)))
          =? CY_RSLT_SUCCESS
       then AtNotifyWait
              (classify_acceleration
                 (snd (mtb_bmi160_read_rslt turning_board (S (reads_done idle)))))
       else Stopped Suspended.
Proof.
  apply (firings_while_busy_coalesce example_null_ptr turning_board 2 1 1
           ORIENTATION_NULL idle).
  - simpl. lia.
  - reflexivity.
  - reflexivity.
Defined.

Example turning_board_run :
  fst (run example_null_ptr turning_board (busy_schedule 2 1 1)
           (AtLoopTop ORIENTATION_NULL, idle)) =
    AtNotifyWait ORIENTATION_BOTTOM_EDGE.
Proof. reflexivity. Qed.

(** ** Invariants of the schedule *)

Section Invariants.

Variable BMI160_E_NULL_PTR : cy_rslt_t.
Variable hw : hardware.

Lemma step_guard_free (s : slot) (cw : control * world) :
  guard_free cw -> guard_free (step BMI160_E_NULL_PTR hw s cw).
Proof.
  destruct cw as [c w]. destruct s.
  - rewrite step_irq. destruct c; unfold guard_free; simpl; trivial.
  - destruct c as [o | o | o | r]; unfold guard_free; cbn [step fst snd];
      intros Hinv.
    + unfold task_motion. rewrite setup_run.
      destruct (semaphore_created hw); [| exact I].
      destruct (cyhal_i2c_init_rslt hw =? CY_RSLT_SUCCESS); [| exact I].
      destruct (cyhal_i2c_configure_rslt hw =? CY_RSLT_SUCCESS); [| exact I].
      destruct (mtb_bmi160_init_i2c_rslt hw =? CY_RSLT_SUCCESS); [| exact I].
      destruct (mtb_bmi160_config_int_rslt hw =? CY_RSLT_SUCCESS);
        [reflexivity | exact I].
    + unfold task_motion. rewrite cycle_run by assumption.
      destruct (fst (mtb_bmi160_read_rslt hw (reads_done w)) =? CY_RSLT_SUCCESS);
        [reflexivity | exact I].
    + unfold task_motion, xTaskNotifyWait.
      destruct (notify_pending w); simpl; assumption.
    + exact I.
Qed.

(** From the entry of the task on, every take in the loop finds the
    semaphore free. *)
Lemma run_guard_free (sched : list slot) (cw : control * world) :
  guard_free cw -> guard_free (run BMI160_E_NULL_PTR hw sched cw).
Proof.
  revert cw. induction sched as [| s sched IH]; intros cw Hinv;
    [exact Hinv |].
  cbn [run]. apply IH, step_guard_free, Hinv.
Qed.

Lemma cycle_without_semaphore (o : orientation_t) (w : world) :
  i2c_semaphore w <> Some true ->
  snd (task_motion_cycle BMI160_E_NULL_PTR hw o w) = w.
Proof.
  intros Hsem.
  unfold task_motion_cycle, bind, motionsensor_update_orientation, bind,
    xSemaphoreTake.
  destruct (i2c_semaphore w) as [[|] |]; [contradiction | reflexivity ..].
Qed.

(** The task's own code neither consumes nor produces notifications
    outside [xTaskNotifyWait]. *)
Lemma task_code_keeps_wakes (c : control) (w : world) :
  (forall o, c <> AtNotifyWait o) ->
  wakes_owed (snd (task_motion BMI160_E_NULL_PTR hw c w)) = wakes_owed w.
Proof.
  intros Hc. destruct c as [o | o | o | r].
  - unfold task_motion. rewrite setup_run. unfold wakes_owed.
    destruct (semaphore_created hw);
      [destruct (cyhal_i2c_init_rslt hw =? CY_RSLT_SUCCESS);
       [destruct (cyhal_i2c_configure_rslt hw =? CY_RSLT_SUCCESS);
        [destruct (mtb_bmi160_init_i2c_rslt hw =? CY_RSLT_SUCCESS);
         [destruct (mtb_bmi160_config_int_rslt hw =? CY_RSLT_SUCCESS) |] |] |] |];
      cbn [snd notify_pending]; rewrite deliveries_app;
      unfold deliveries; rewrite Nat.add_0_r; reflexivity.
  - assert (Hcases : i2c_semaphore w = Some true \/ i2c_semaphore w <> Some true).
    { destruct (i2c_semaphore w) as [[|] |];
        [left; reflexivity | right; discriminate ..]. }
    destruct Hcases as [Hsem | Hsem].
    + unfold task_motion. rewrite cycle_run by assumption. unfold wakes_owed.
      destruct (fst (mtb_bmi160_read_rslt hw (reads_done w)) =? CY_RSLT_SUCCESS);
        cbn [snd notify_pending]; rewrite deliveries_app, count_events_app;
        rewrite ?(proj1 (orientation_output_no_isr _));
        unfold deliveries; rewrite !Nat.add_0_r; reflexivity.
    + pose proof (cycle_without_semaphore o w Hsem) as Hsame.
      unfold task_motion.
      destruct (task_motion_cycle BMI160_E_NULL_PTR hw o w) as [[o' | r] w'];
        simpl in *; subst; reflexivity.
  - exfalso. apply (Hc o). reflexivity.
  - reflexivity.
Qed.

Lemma step_wakes_owed (s : slot) (cw : control * world) :
  (wakes_owed (snd (step BMI160_E_NULL_PTR hw s cw))
   <= wakes_owed (snd cw) + irq_count [s])%nat.
Proof.
  destruct cw as [c w]. destruct s.
  - rewrite step_irq. unfold wakes_owed. cbn [snd notify_pending].
    rewrite deliveries_app. rewrite (proj1 (isr_events_counts 1)).
    unfold deliveries, irq_count. simpl.
    destruct (notify_pending w); lia.
  - cbn [step fst snd]. unfold irq_count. cbn [filter List.length].
    rewrite Nat.add_0_r.
    destruct c as [o | o | o | r];
      try (rewrite task_code_keeps_wakes by discriminate; lia).
    unfold task_motion, xTaskNotifyWait, wakes_owed.
    destruct (notify_pending w) eqn:Hp; cbn [snd notify_pending];
      [| rewrite Hp; lia].
    unfold log, set_pending.
    cbn [notify_pending trace i2c_semaphore reads_done].
    rewrite deliveries_app. unfold deliveries.
    change (count_events is_wake [EvNotifyWaitReturn]) with 1%nat. lia.
Qed.

(** Under every schedule the task is woken at most as often as the
    interrupt fired, counting a notification that was pending at the
    start. *)
Lemma run_wakes_owed (sched : list slot) (cw : control * world) :
  (wakes_owed (snd (run BMI160_E_NULL_PTR hw sched cw))
   <= wakes_owed (snd cw) + irq_count sched)%nat.
Proof.
  revert cw. induction sched as [| s sched IH]; intros cw.
  - unfold irq_count. simpl. lia.
  - cbn [run]. specialize (IH (step BMI160_E_NULL_PTR hw s cw)).
    pose proof (step_wakes_owed s cw) as Hstep.
    assert (Hcount : irq_count (s :: sched)
                     = (irq_count [s] + irq_count sched)%nat).
    { unfold irq_count. simpl. destruct s; simpl; lia. }
    lia.
Qed.

End Invariants.

(** * Further properties of the code *)

(** ** The classifier *)

Section ClassifierFacts.

Variable BMI160_E_NULL_PTR : cy_rslt_t.
Variable hw : hardware.

(** X1: through a valid pointer and with the semaphore free the call
    always returns, and it returns success exactly when the variable then
    holds one of the six concrete orientations; otherwise the variable
    holds ORIENTATION_NULL. *)
Theorem update_succeeds_iff_orientation_concrete
    (old : orientation_t) (w : world) :
  i2c_semaphore w = Some true ->
  exists (r : cy_rslt_t) (o : orientation_t) (w' : world),
    motionsensor_update_orientation BMI160_E_NULL_PTR hw (Some old) w =
      (Ret (r, Some o), w')
    /\ (r = CY_RSLT_SUCCESS <-> o <> ORIENTATION_NULL).
Proof.
  intros Hsem. rewrite update_orientation_run by assumption.
  do 3 eexists. split; [reflexivity |].
  destruct (Z.eqb_spec (fst (mtb_bmi160_read_rslt hw (reads_done w)))
              CY_RSLT_SUCCESS) as [Heq | Hneq].
  - split; [intros _; apply classify_acceleration_concrete | intros _; exact Heq].
  - split; [intros Heq; contradiction | intros Ho; exfalso; apply Ho; reflexivity].
Qed.

End ClassifierFacts.

Lemma update_succeeds_iff_orientation_concrete_witness :
  exists (r : cy_rslt_t) (o : orientation_t) (w' : world),
    motionsensor_update_orientation example_null_ptr (read_error_board 2)
      (Some ORIENTATION_DISP_UP) idle = (Ret (r, Some o), w')
    /\ (r = CY_RSLT_SUCCESS <-> o <> ORIENTATION_NULL).
Proof.
  apply (update_succeeds_iff_orientation_concrete example_null_ptr
           (read_error_board 2) ORIENTATION_DISP_UP idle).
  reflexivity.
Defined.

(** X2: what each result says about the sample.  A face is reported only
    when the magnitude of z strictly exceeds the other two, the top or
    bottom edge only when the magnitude of y strictly exceeds the other
    two, and the sign of that axis picks the side. *)
Theorem classification_determines_dominance (data : mtb_bmi160_data_t) :
  int16_sample (accel data) ->
  (classify_acceleration data = ORIENTATION_DISP_DOWN <->
     Z.abs (z (accel data)) > Z.abs (x (accel data)) /\
     Z.abs (z (accel data)) > Z.abs (y (accel data)) /\ z (accel data) < 0)
  /\ (classify_acceleration data = ORIENTATION_DISP_UP <->
        Z.abs (z (accel data)) > Z.abs (x (accel data)) /\
        Z.abs (z (accel data)) > Z.abs (y (accel data)) /\ z (accel data) > 0)
  /\ (classify_acceleration data = ORIENTATION_BOTTOM_EDGE <->
        Z.abs (y (accel data)) > Z.abs (x (accel data)) /\
        Z.abs (y (accel data)) > Z.abs (z (accel data)) /\ y (accel data) > 0)
  /\ (classify_acceleration data = ORIENTATION_TOP_EDGE <->
        Z.abs (y (accel data)) > Z.abs (x (accel data)) /\
        Z.abs (y (accel data)) > Z.abs (z (accel data)) /\ y (accel data) < 0).
Proof.
  intros Hs. rewrite classify_acceleration_int16 by assumption. cbv zeta.
  destruct (Z.gtb_spec (Z.abs (z (accel data))) (Z.abs (x (accel data))));
  destruct (Z.gtb_spec (Z.abs (z (accel data))) (Z.abs (y (accel data))));
  destruct (Z.gtb_spec (Z.abs (y (accel data))) (Z.abs (x (accel data))));
  destruct (Z.gtb_spec (Z.abs (y (accel data))) (Z.abs (z (accel data))));
  destruct (Z.ltb_spec (z (accel data)) 0);
  destruct (Z.gtb_spec (y (accel data)) 0);
  destruct (Z.ltb_spec (x (accel data)) 0);
  cbn [andb]; repeat split; intros; try discriminate; try lia.
Qed.

Lemma classification_determines_dominance_witness :
  (classify_acceleration (reading 0 5 5) = ORIENTATION_DISP_DOWN <->
     Z.abs 5 > Z.abs 0 /\ Z.abs 5 > Z.abs 5 /\ 5 < 0)
  /\ (classify_acceleration (reading 0 5 5) = ORIENTATION_DISP_UP <->
        Z.abs 5 > Z.abs 0 /\ Z.abs 5 > Z.abs 5 /\ 5 > 0)
  /\ (classify_acceleration (reading 0 5 5) = ORIENTATION_BOTTOM_EDGE <->
        Z.abs 5 > Z.abs 0 /\ Z.abs 5 > Z.abs 5 /\ 5 > 0)
  /\ (classify_acceleration (reading 0 5 5) = ORIENTATION_TOP_EDGE <->
        Z.abs 5 > Z.abs 0 /\ Z.abs 5 > Z.abs 5 /\ 5 < 0).
Proof.
  apply (classification_determines_dominance (reading 0 5 5)).
  apply int16_sample_small; lia.
Defined.

Lemma abs_gtb_scale (k a b : Z) :
  k <> 0 -> (Z.abs (k * a) >? Z.abs (k * b)) = (Z.abs a >? Z.abs b).
Proof.
  intros Hk. rewrite !Z.abs_mul.
  destruct (Z.gtb_spec (Z.abs k * Z.abs a) (Z.abs k * Z.abs b));
    destruct (Z.gtb_spec (Z.abs a) (Z.abs b)); try reflexivity; nia.
Qed.

Lemma classify_scaled (k : Z) (data : mtb_bmi160_data_t) :
  k <> 0 ->
  int16_sample (accel data) ->
  int16_sample (accel (scale_acceleration k data)) ->
  classify_acceleration (scale_acceleration k data) =
    let s := accel data in
    if (Z.abs (z s) >? Z.abs (x s)) && (Z.abs (z s) >? Z.abs (y s)) then
      if k * z s <? 0 then ORIENTATION_DISP_DOWN else ORIENTATION_DISP_UP
    else if (Z.abs (y s) >? Z.abs (x s)) && (Z.abs (y s) >? Z.abs (z s)) then
      if k * y s >? 0 then ORIENTATION_BOTTOM_EDGE else ORIENTATION_TOP_EDGE
    else
      if k * x s <? 0 then ORIENTATION_RIGHT_EDGE else ORIENTATION_LEFT_EDGE.
Proof.
  intros Hk Hs Hks. rewrite classify_acceleration_int16 by assumption.
  cbv zeta. cbn [scale_acceleration accel x y z].
  rewrite !abs_gtb_scale by assumption. reflexivity.
Qed.

(** X3: the result depends on the direction of the acceleration only:
    multiplying all three axes by the same positive factor changes
    nothing, as long as the sample stays within 16 bits. *)
Theorem classification_ignores_magnitude (k : Z) (data : mtb_bmi160_data_t) :
  k > 0 ->
  int16_sample (accel data) ->
  int16_sample (accel (scale_acceleration k data)) ->
  classify_acceleration (scale_acceleration k data) = classify_acceleration data.
Proof.
  intros Hk Hs Hks. rewrite classify_scaled by (assumption || lia).
  rewrite (classify_acceleration_int16 data) by assumption. cbv zeta.
  assert (Hz : (k * z (accel data) <? 0) = (z (accel data) <? 0)).
  { destruct (Z.ltb_spec (k * z (accel data)) 0);
      destruct (Z.ltb_spec (z (accel data)) 0); try reflexivity; nia. }
  assert (Hy : (k * y (accel data) >? 0) = (y (accel data) >? 0)).
  { destruct (Z.gtb_spec (k * y (accel data)) 0);
      destruct (Z.gtb_spec (y (accel data)) 0); try reflexivity; nia. }
  assert (Hx : (k * x (accel data) <? 0) = (x (accel data) <? 0)).
  { destruct (Z.ltb_spec (k * x (accel data)) 0);
      destruct (Z.ltb_spec (x (accel data)) 0); try reflexivity; nia. }
  rewrite Hz, Hy, Hx. reflexivity.
Qed.

Lemma classification_ignores_magnitude_witness :
  classify_acceleration (scale_acceleration 3 (reading 50 (-700) 100)) =
    classify_acceleration (reading 50 (-700) 100).
Proof.
  apply (classification_ignores_magnitude 3 (reading 50 (-700) 100)).
  - lia.
  - apply int16_sample_small; lia.
  - repeat split; simpl; lia.
Defined.

(** X4: a board turned upside down reports the opposite orientation:
    with all three axes multiplied by the same negative factor and x not
    zero, the result is the same axis with the other sign. *)
Theorem reversed_acceleration_gives_opposite
    (k : Z) (data : mtb_bmi160_data_t) :
  k < 0 ->
  x (accel data) <> 0 ->
  int16_sample (accel data) ->
  int16_sample (accel (scale_acceleration k data)) ->
  classify_acceleration (scale_acceleration k data) =
    opposite (classify_acceleration data).
Proof.
  intros Hk Hx0 Hs Hks. rewrite classify_scaled by (assumption || lia).
  rewrite (classify_acceleration_int16 data) by assumption. cbv zeta.
  destruct (Z.gtb_spec (Z.abs (z (accel data))) (Z.abs (x (accel data))));
    destruct (Z.gtb_spec (Z.abs (z (accel data))) (Z.abs (y (accel data))));
    cbn [andb].
  1: { destruct (Z.ltb_spec (k * z (accel data)) 0);
         destruct (Z.ltb_spec (z (accel data)) 0); try reflexivity; nia. }
  all: destruct (Z.gtb_spec (Z.abs (y (accel data))) (Z.abs (x (accel data))));
    destruct (Z.gtb_spec (Z.abs (y (accel data))) (Z.abs (z (accel data))));
    cbn [andb];
    try (destruct (Z.gtb_spec (k * y (accel data)) 0);
         destruct (Z.gtb_spec (y (accel data)) 0); try reflexivity; nia);
    try (destruct (Z.ltb_spec (k * x (accel data)) 0);
         destruct (Z.ltb_spec (x (accel data)) 0); try reflexivity; nia).
Qed.

Lemma reversed_acceleration_gives_opposite_witness :
  classify_acceleration (scale_acceleration (-1) (reading 10 20 900)) =
    opposite (classify_acceleration (reading 10 20 900)).
Proof.
  apply (reversed_acceleration_gives_opposite (-1) (reading 10 20 900)).
  - lia.
  - simpl. lia.
  - apply int16_sample_small; lia.
  - repeat split; simpl; lia.
Defined.

(** ** The console *)

(** X5: the line printed tells the orientation: two orientations with the
    same output are the same orientation, and only ORIENTATION_NULL
    prints nothing. *)
Theorem orientation_line_identifies_orientation (o1 o2 : orientation_t) :
  (orientation_output o1 = orientation_output o2 -> o1 = o2)
  /\ (orientation_output o1 = [] <-> o1 = ORIENTATION_NULL).
Proof.
  split.
  - destruct o1, o2; intros H; try reflexivity; vm_compute in H; discriminate.
  - destruct o1; split; intros H; try reflexivity; try discriminate;
      vm_compute in H; discriminate.
Qed.

(** ** Every run from boot *)

Lemma bus_discipline_app (h : bool) (a b : list event) :
  bus_discipline h (a ++ b) =
    match bus_discipline h a with
    | Some h' => bus_discipline h' b
    | None => None
    end.
Proof.
  revert h. induction a as [| e a IH]; intros h; [reflexivity |].
  destruct e; simpl; try apply IH; destruct h; try reflexivity; apply IH.
Qed.

Lemma bus_discipline_quiet (h : bool) (evs : list event) :
  Forall (fun e => is_bus_operation e = false
                   /\ is_semaphore_operation e = false) evs ->
  bus_discipline h evs = Some h.
Proof.
  induction 1 as [| e evs [Hb Hs] _ IH]; [reflexivity |].
  destruct e; simpl in *; try discriminate; exact IH.
Qed.

Lemma isr_events_quiet (n : nat) (h : bool) :
  bus_discipline h (isr_events n) = Some h.
Proof.
  apply bus_discipline_quiet.
  induction n as [| n IH]; simpl; repeat constructor; exact IH.
Qed.

Lemma orientation_output_quiet (o : orientation_t) (h : bool) :
  bus_discipline h (orientation_output o) = Some h.
Proof. destruct o; reflexivity. Qed.

Lemma isr_events_no_report (n : nat) :
  filter is_orientation_report (isr_events n) = []
  /\ count_events is_sensor_read (isr_events n) = O.
Proof.
  induction n as [| n [IHr IHs]]; [split; reflexivity |].
  split; [exact IHr | exact IHs].
Qed.

Lemma orientation_output_is_report (o : orientation_t) :
  filter is_orientation_report (orientation_output o) = orientation_output o
  /\ count_events is_sensor_read (orientation_output o) = O.
Proof. destruct o; split; vm_compute; reflexivity. Qed.

Lemma reports_app (s : option bool) (p : bool) (r : nat) (t evs : list event) :
  reports (mk_world s p r (t ++ evs)) =
    filter is_orientation_report t ++ filter is_orientation_report evs.
Proof. unfold reports. simpl. apply filter_app. Qed.

Lemma sensor_reads_app (s : option bool) (p : bool) (r : nat)
    (t evs : list event) :
  sensor_reads (mk_world s p r (t ++ evs)) =
    (count_events is_sensor_read t + count_events is_sensor_read evs)%nat.
Proof. unfold sensor_reads. simpl. apply count_events_app. Qed.

Section Reachable.

Variable BMI160_E_NULL_PTR : cy_rslt_t.
Variable hw : hardware.

(** What start-up does to a world, whatever the board answers. *)
Lemma setup_effect (w : world) :
  exists (evs : list event) (h : bool),
    trace (snd (task_motion_setup hw w)) = trace w ++ evs
    /\ reads_done (snd (task_motion_setup hw w)) = reads_done w
    /\ filter is_orientation_report evs = []
    /\ count_events is_sensor_read evs = O
    /\ count_events is_wake evs = O
    /\ bus_discipline false evs = Some h
    /\ bus_ops_of evs = attempted_bus_ops hw
    /\ ((fst (task_motion_setup hw w) = Ret tt /\ all_succeed hw = true
         /\ h = false
         /\ i2c_semaphore (snd (task_motion_setup hw w)) = Some true)
        \/ (fst (task_motion_setup hw w) = Stop Suspended
            /\ all_succeed hw = false)).
Proof.
  rewrite setup_run. unfold all_succeed, attempted_bus_ops.
  destruct (semaphore_created hw);
    [destruct (cyhal_i2c_init_rslt hw =? CY_RSLT_SUCCESS);
     [destruct (cyhal_i2c_configure_rslt hw =? CY_RSLT_SUCCESS);
      [destruct (mtb_bmi160_init_i2c_rslt hw =? CY_RSLT_SUCCESS);
       [destruct (mtb_bmi160_config_int_rslt hw =? CY_RSLT_SUCCESS) |] |] |] |];
    cbn [fst snd trace reads_done i2c_semaphore andb negb];
    eexists; eexists;
    (split; [reflexivity |]);
    (split; [reflexivity |]);
    (split; [vm_compute; reflexivity |]);
    (split; [vm_compute; reflexivity |]);
    (split; [vm_compute; reflexivity |]);
    (split; [vm_compute; reflexivity |]);
    (split; [vm_compute; reflexivity |]);
    first [left; repeat split; reflexivity | right; split; reflexivity].
Qed.

Lemma boot_settled (o : orientation_t) : settled hw (AtEntry o, boot).
Proof.
  unfold settled. cbn. split; [reflexivity |].
  split; [exists false; split; reflexivity |]. repeat split; reflexivity.
Qed.

Lemma settled_irq (c : control) (w : world) :
  settled hw (c, w) -> settled hw (step BMI160_E_NULL_PTR hw Irq (c, w)).
Proof.
  rewrite step_irq. unfold settled. cbn [fst snd].
  unfold sensor_reads, reports, deliveries. cbn [trace reads_done i2c_semaphore].
  rewrite count_events_app, bus_discipline_app, filter_app, count_events_app.
  rewrite (proj1 (isr_events_no_report 1)), (proj2 (isr_events_no_report 1)).
  rewrite (proj1 (isr_events_counts 1)), app_nil_r, !Nat.add_0_r.
  intros (Hreads & (h & Hd & Hh) & Hc).
  split; [exact Hreads |]. split; [| exact Hc].
  exists h. rewrite Hd. split; [apply isr_events_quiet | exact Hh].
Qed.

Lemma settled_entry (o : orientation_t) (w : world) :
  settled hw (AtEntry o, w) ->
  settled hw (task_motion BMI160_E_NULL_PTR hw (AtEntry o) w).
Proof.
  unfold settled at 1. cbn [fst snd].
  intros (Hreads & (h0 & Hd0 & Hh0) & Hr0 & Hdel0 & Hrep0). subst h0.
  destruct (setup_effect w)
    as (evs & h & Ht & Hr & Hrep & Hsr & Hwk & Hd & _ & Hout).
  unfold task_motion.
  revert Ht Hr Hout.
  destruct (task_motion_setup hw w) as [[[] | r] w1]; cbn [fst snd];
    intros Ht Hr Hout;
    (destruct Hout as [(Hret & Hall & Hh & Hsem) | (Hstop & Hall)];
     [| try discriminate Hstop]; try discriminate Hret);
    unfold settled; cbn [fst snd];
    unfold sensor_reads, reports, deliveries in *; rewrite Ht, Hr;
    rewrite !count_events_app, bus_discipline_app, filter_app;
    rewrite Hd0, Hd, Hrep, Hsr, Hwk, Hrep0, Hdel0, Hreads, Hr0.
  - subst h. split; [reflexivity |].
    split; [exists false; split; reflexivity |].
    repeat split; try reflexivity; try assumption.
    intros k Hk. lia.
  - inversion Hstop; subst r. split; [reflexivity |].
    split; [exists h; split; [reflexivity | exact I] |].
    repeat split; try reflexivity; try lia.
    intros k Hk. simpl in Hk. lia.
Qed.

Lemma settled_loop_top (o : orientation_t) (w : world) :
  settled hw (AtLoopTop o, w) ->
  settled hw (step BMI160_E_NULL_PTR hw Run (AtLoopTop o, w)).
Proof.
  unfold settled at 1. cbn [fst snd].
  intros (Hreads & (h0 & Hd0 & Hh0) & Hall & Hsem & Hr0 & Hrep0 & Hlast
          & Hgood).
  subst h0. rewrite step_cycle by assumption.
  destruct (Z.eqb_spec (fst (mtb_bmi160_read_rslt hw (reads_done w)))
              CY_RSLT_SUCCESS) as [Hok | Hfail];
    unfold settled; cbn [fst snd];
    unfold sensor_reads, reports, deliveries in *;
    cbn [trace reads_done i2c_semaphore];
    rewrite !count_events_app, !bus_discipline_app, !filter_app;
    rewrite Hd0, Hrep0, Hreads.
  - rewrite (proj1 (orientation_output_is_report _)),
      (proj2 (orientation_output_is_report _)),
      (proj1 (orientation_output_no_isr _)).
    rewrite bus_discipline_app. cbn [bus_discipline].
    rewrite orientation_output_quiet.
    split; [vm_compute count_events; lia |].
    split; [exists false; split; reflexivity |].
    repeat split; try assumption.
    + rewrite Hr0. vm_compute count_events. lia.
    + intros k Hk. destruct (Nat.eq_dec k (reads_done w)) as [-> | Hne];
        [exact Hok | apply Hgood; lia].
  - split; [vm_compute count_events; lia |].
    split; [exists false; split; [reflexivity | exact I] |].
    repeat split; try assumption.
    + rewrite Hr0. vm_compute count_events. lia.
    + cbn [Nat.pred]. vm_compute (filter _ _). rewrite app_nil_r. reflexivity.
Qed.

Lemma settled_notify_wait (o : orientation_t) (w : world) :
  settled hw (AtNotifyWait o, w) ->
  settled hw (step BMI160_E_NULL_PTR hw Run (AtNotifyWait o, w)).
Proof.
  destruct (notify_pending w) eqn:Hp.
  - rewrite step_wake by assumption.
    unfold settled. cbn [fst snd].
    unfold sensor_reads, reports, deliveries.
    cbn [trace reads_done i2c_semaphore].
    rewrite !count_events_app, bus_discipline_app, filter_app.
    intros (Hreads & (h0 & Hd0 & Hh0) & Hall & Hsem & Hr0 & Hrep0 & Hlast
            & Hgood).
    subst h0. rewrite Hd0, Hreads, Hrep0.
    change (count_events is_sensor_read [EvNotifyWaitReturn]) with 0%nat.
    change (count_events is_wake [EvNotifyWaitReturn]) with 1%nat.
    change (filter is_orientation_report [EvNotifyWaitReturn])
      with (@nil event).
    rewrite app_nil_r, Nat.add_0_r.
    split; [reflexivity |].
    split; [exists false; split; reflexivity |].
    repeat split; try assumption. lia.
  - cbn [step fst snd task_motion]. unfold xTaskNotifyWait. rewrite Hp.
    trivial.
Qed.

Lemma settled_step (s : slot) (cw : control * world) :
  settled hw cw -> settled hw (step BMI160_E_NULL_PTR hw s cw).
Proof.
  destruct cw as [c w]. destruct s; [apply settled_irq |].
  destruct c as [o | o | o | r].
  - apply settled_entry.
  - apply settled_loop_top.
  - apply settled_notify_wait.
  - trivial.
Qed.

Lemma settled_run (sched : list slot) (cw : control * world) :
  settled hw cw -> settled hw (run BMI160_E_NULL_PTR hw sched cw).
Proof.
  revert cw. induction sched as [| s sched IH]; intros cw Hcw;
    [exact Hcw |].
  cbn [run]. apply IH, settled_step, Hcw.
Qed.

End Reachable.

Lemma expected_reports_length (hw : hardware) (n : nat) :
  List.length (expected_reports hw n) = n.
Proof.
  induction n as [| n IH]; [reflexivity |].
  cbn [expected_reports]. rewrite length_app, IH.
  destruct (orientation_output_is_one_printf
              (classify_acceleration (snd (mtb_bmi160_read_rslt hw n)))
              (classify_acceleration_concrete _)) as (fmt & -> & _).
  simpl. lia.
Qed.

Section RunsFromBoot.

Variable BMI160_E_NULL_PTR : cy_rslt_t.
Variable hw : hardware.

(** X6: under every schedule, every driver call the task makes happens
    between a take and the next give of [i2c_semaphore], and the task
    never takes the semaphore while it holds it. *)
Theorem bus_operations_hold_semaphore (sched : list slot) (o : orientation_t) :
  exists holding : bool,
    bus_discipline false
      (trace (snd (run BMI160_E_NULL_PTR hw sched (AtEntry o, boot)))) =
    Some holding.
Proof.
  destruct (settled_run BMI160_E_NULL_PTR hw sched _ (boot_settled hw o))
    as (_ & (h & Hd & _) & _).
  exists h. exact Hd.
Qed.

(** X7: the only way the task ever stops is [vTaskSuspend] after a
    reported failure: under no schedule does it block on the semaphore or
    use the NULL handle. *)
Theorem task_only_stops_by_suspending (sched : list slot) (o : orientation_t) :
  match fst (run BMI160_E_NULL_PTR hw sched (AtEntry o, boot)) with
  | Stopped r => r = Suspended
  | _ => True
  end.
Proof.
  destruct (settled_run BMI160_E_NULL_PTR hw sched _ (boot_settled hw o))
    as (_ & _ & Hc).
  destruct (fst (run BMI160_E_NULL_PTR hw sched (AtEntry o, boot)));
    [exact I | exact I | exact I | apply Hc].
Qed.

(** X8: the sensor is read only on a board where the semaphore was
    created and I2C initialization, I2C configuration, sensor
    initialization and interrupt configuration all succeeded. *)
Theorem sensor_read_only_after_successful_setup
    (sched : list slot) (o : orientation_t) :
  sensor_reads (snd (run BMI160_E_NULL_PTR hw sched (AtEntry o, boot))) = O
  \/ all_succeed hw = true.
Proof.
  destruct (settled_run BMI160_E_NULL_PTR hw sched _ (boot_settled hw o))
    as (Hreads & _ & Hc).
  rewrite Hreads.
  destruct (fst (run BMI160_E_NULL_PTR hw sched (AtEntry o, boot)))
    as [o' | o' | o' | r].
  - left. apply Hc.
  - right. apply Hc.
  - right. apply Hc.
  - destruct Hc as (_ & _ & Hall & _).
    destruct (reads_done (snd (run BMI160_E_NULL_PTR hw sched (AtEntry o, boot))));
      [left; reflexivity | right; apply Hall; discriminate].
Qed.

(** X9: the task does not poll.  Under every schedule it prints at most
    one orientation line per sensor read, reads the sensor at most once
    more than it was woken, and is woken at most as often as the
    interrupt was served. *)
Theorem reads_bounded_by_interrupts (sched : list slot) (o : orientation_t) :
  (List.length
     (reports (snd (run BMI160_E_NULL_PTR hw sched (AtEntry o, boot))))
   <= sensor_reads (snd (run BMI160_E_NULL_PTR hw sched (AtEntry o, boot))))%nat
  /\ (sensor_reads (snd (run BMI160_E_NULL_PTR hw sched (AtEntry o, boot)))
      <= S (deliveries
              (snd (run BMI160_E_NULL_PTR hw sched (AtEntry o, boot)))))%nat
  /\ (deliveries (snd (run BMI160_E_NULL_PTR hw sched (AtEntry o, boot)))
      <= irq_count sched)%nat.
Proof.
  destruct (settled_run BMI160_E_NULL_PTR hw sched _ (boot_settled hw o))
    as (Hreads & _ & Hc).
  pose proof (run_wakes_owed BMI160_E_NULL_PTR hw sched (AtEntry o, boot))
    as Hwakes.
  unfold wakes_owed in Hwakes. cbn [snd] in Hwakes.
  change (deliveries boot) with O in Hwakes.
  change (notify_pending boot) with false in Hwakes.
  assert (Hdel : (deliveries
                    (snd (run BMI160_E_NULL_PTR hw sched (AtEntry o, boot)))
                  <= irq_count sched)%nat).
  { destruct (notify_pending
                (snd (run BMI160_E_NULL_PTR hw sched (AtEntry o, boot))));
      lia. }
  clear Hwakes. rewrite Hreads.
  destruct (fst (run BMI160_E_NULL_PTR hw sched (AtEntry o, boot)))
    as [o' | o' | o' | r].
  - destruct Hc as (Hr & Hd & Hrep). rewrite Hrep, Hr. simpl. lia.
  - destruct Hc as (_ & _ & Hr & Hrep & _).
    rewrite Hrep, expected_reports_length. lia.
  - destruct Hc as (_ & _ & Hr & Hrep & _).
    rewrite Hrep, expected_reports_length. lia.
  - destruct Hc as (_ & Hr & _ & Hrep & _).
    rewrite Hrep, expected_reports_length. lia.
Qed.

(** X10: the console shows the classification of each sample in the order
    read: under every schedule the orientation lines printed so far are
    those of the first [n] samples of the sensor, whose reads all
    succeeded, where [n] is the number of reads made, or one less when the
    task stopped on a failed read. *)
Theorem console_shows_each_sample_in_order
    (sched : list slot) (o : orientation_t) :
  exists n : nat,
    reports (snd (run BMI160_E_NULL_PTR hw sched (AtEntry o, boot))) =
      expected_reports hw n
    /\ reads_succeed hw n
    /\ (n = sensor_reads (snd (run BMI160_E_NULL_PTR hw sched (AtEntry o, boot)))
        \/ (S n = sensor_reads
                    (snd (run BMI160_E_NULL_PTR hw sched (AtEntry o, boot)))
            /\ fst (run BMI160_E_NULL_PTR hw sched (AtEntry o, boot)) =
                 Stopped Suspended
            /\ fst (mtb_bmi160_read_rslt hw n) <> CY_RSLT_SUCCESS)).
Proof.
  destruct (settled_run BMI160_E_NULL_PTR hw sched _ (boot_settled hw o))
    as (Hreads & _ & Hc).
  rewrite Hreads.
  destruct (fst (run BMI160_E_NULL_PTR hw sched (AtEntry o, boot)))
    as [o' | o' | o' | r].
  - destruct Hc as (Hr & _ & Hrep). exists O. rewrite Hrep, Hr.
    split; [reflexivity |]. split; [intros k Hk; lia | left; reflexivity].
  - destruct Hc as (_ & _ & _ & Hrep & _ & Hgood).
    eexists. split; [exact Hrep |]. split; [exact Hgood | left; reflexivity].
  - destruct Hc as (_ & _ & _ & Hrep & _ & Hgood).
    eexists. split; [exact Hrep |]. split; [exact Hgood | left; reflexivity].
  - destruct Hc as (-> & _ & Hfail & Hrep & Hgood).
    eexists. split; [exact Hrep |]. split; [exact Hgood |].
    destruct (reads_done (snd (run BMI160_E_NULL_PTR hw sched (AtEntry o, boot))))
      as [| n]; [left; reflexivity | right].
    split; [reflexivity |]. split; [reflexivity |].
    apply Hfail. discriminate.
Qed.

(** X11: while the task waits for the next interrupt, the orientation it
    holds is the classification of the sample it read last, and that read
    succeeded. *)
Theorem waiting_task_holds_latest_classification
    (sched : list slot) (o : orientation_t) :
  match fst (run BMI160_E_NULL_PTR hw sched (AtEntry o, boot)) with
  | AtNotifyWait held =>
      exists k : nat,
        sensor_reads (snd (run BMI160_E_NULL_PTR hw sched (AtEntry o, boot)))
          = S k
        /\ fst (mtb_bmi160_read_rslt hw k) = CY_RSLT_SUCCESS
        /\ held = classify_acceleration (snd (mtb_bmi160_read_rslt hw k))
  | _ => True
  end.
Proof.
  destruct (settled_run BMI160_E_NULL_PTR hw sched _ (boot_settled hw o))
    as (Hreads & _ & Hc).
  rewrite Hreads.
  destruct (fst (run BMI160_E_NULL_PTR hw sched (AtEntry o, boot)))
    as [o' | o' | held | r]; try exact I.
  destruct Hc as (_ & _ & Hr & _ & Hlast & _).
  rewrite Hr in *. exists (deliveries
    (snd (run BMI160_E_NULL_PTR hw sched (AtEntry o, boot)))).
  split; [reflexivity | exact Hlast].
Qed.

(** X12: start-up enters the loop exactly on a board where the semaphore
    is created and all four driver calls succeed, and is suspended
    otherwise; in both cases each driver call is made only after all the
    calls before it succeeded, and the sensor is not read. *)
Theorem setup_enters_loop_iff_all_succeed (o : orientation_t) (w : world) :
  fst (task_motion BMI160_E_NULL_PTR hw (AtEntry o) w) =
    (if all_succeed hw then AtLoopTop o else Stopped Suspended)
  /\ exists evs : list event,
       trace (snd (task_motion BMI160_E_NULL_PTR hw (AtEntry o) w)) =
         trace w ++ evs
       /\ bus_ops_of evs = attempted_bus_ops hw.
Proof.
  destruct (setup_effect hw w)
    as (evs & h & Ht & _ & _ & _ & _ & _ & Hops & Hout).
  unfold task_motion. revert Ht Hout.
  destruct (task_motion_setup hw w) as [[[] | r] w1]; cbn [fst snd];
    intros Ht Hout;
    (destruct Hout as [(Hret & Hall & _) | (Hstop & Hall)];
     [| try discriminate Hstop]; try discriminate Hret);
    rewrite Hall;
    (split; [| exists evs; split; assumption]).
  - reflexivity.
  - inversion Hstop. reflexivity.
Qed.

Lemma all_succeed_true :
  all_succeed hw = true ->
  semaphore_created hw = true
  /\ (cyhal_i2c_init_rslt hw =? CY_RSLT_SUCCESS) = true
  /\ (cyhal_i2c_configure_rslt hw =? CY_RSLT_SUCCESS) = true
  /\ (mtb_bmi160_init_i2c_rslt hw =? CY_RSLT_SUCCESS) = true
  /\ (mtb_bmi160_config_int_rslt hw =? CY_RSLT_SUCCESS) = true.
Proof.
  unfold all_succeed. intros H.
  repeat (apply andb_prop in H; destruct H as [H ?]).
  repeat split; assumption.
Qed.

(** X16: on a board where start-up succeeds and the first read succeeds,
    the task reports the orientation of the first sample without waiting
    for an interrupt: scheduled twice or more from boot and with no
    interrupt served, it has read the sensor once, printed the line for
    that sample and nothing else about orientation, and waits. *)
Theorem initial_orientation_reported_before_any_interrupt
    (o : orientation_t) (m : nat) :
  all_succeed hw = true ->
  fst (mtb_bmi160_read_rslt hw O) = CY_RSLT_SUCCESS ->
  fst (run BMI160_E_NULL_PTR hw (repeat Run (S (S m))) (AtEntry o, boot)) =
    AtNotifyWait (classify_acceleration (snd (mtb_bmi160_read_rslt hw O)))
  /\ reports
       (snd (run BMI160_E_NULL_PTR hw (repeat Run (S (S m))) (AtEntry o, boot)))
     = orientation_output
         (classify_acceleration (snd (mtb_bmi160_read_rslt hw O)))
  /\ sensor_reads
       (snd (run BMI160_E_NULL_PTR hw (repeat Run (S (S m))) (AtEntry o, boot)))
     = 1%nat.
Proof.
  intros Hall Hread.
  destruct (all_succeed_true Hall) as (Hs & Hi & Hc & Hb & Hint).
  cbn [repeat run].
  assert (Hentry :
    step BMI160_E_NULL_PTR hw Run (AtEntry o, boot) =
      match task_motion_setup hw boot with
      | (Ret _, w') => (AtLoopTop o, w')
      | (Stop r, w') => (Stopped r, w')
      end) by reflexivity.
  rewrite Hentry, setup_run, Hs, Hi, Hc, Hb, Hint.
  change (reads_done boot) with O. change (notify_pending boot) with false.
  change (trace boot) with (@nil event).
  rewrite step_cycle by reflexivity. cbn [reads_done notify_pending trace].
  rewrite Hread. cbn [Z.eqb CY_RSLT_SUCCESS]. cbv iota.
  rewrite run_blocked_in_wait by reflexivity. cbn [fst snd].
  split; [reflexivity |].
  unfold reports, sensor_reads. cbn [trace].
  rewrite !filter_app, !count_events_app.
  rewrite (proj1 (orientation_output_is_report _)),
    (proj2 (orientation_output_is_report _)).
  generalize (orientation_output
                (classify_acceleration (snd (mtb_bmi160_read_rslt hw 0)))).
  intros out. split; vm_compute; reflexivity.
Qed.

End RunsFromBoot.

Lemma initial_orientation_reported_before_any_interrupt_witness :
  fst (run example_null_ptr (steady_board 10 20 900) (repeat Run 3)
           (AtEntry ORIENTATION_NULL, boot)) =
    AtNotifyWait
      (classify_acceleration
         (snd (mtb_bmi160_read_rslt (steady_board 10 20 900) O)))
  /\ reports
       (snd (run example_null_ptr (steady_board 10 20 900) (repeat Run 3)
                 (AtEntry ORIENTATION_NULL, boot)))
     = orientation_output
         (classify_acceleration
            (snd (mtb_bmi160_read_rslt (steady_board 10 20 900) O)))
  /\ sensor_reads
       (snd (run example_null_ptr (steady_board 10 20 900) (repeat Run 3)
                 (AtEntry ORIENTATION_NULL, boot)))
     = 1%nat.
Proof.
  apply (initial_orientation_reported_before_any_interrupt example_null_ptr
           (steady_board 10 20 900) ORIENTATION_NULL 1).
  - reflexivity.
  - reflexivity.
Defined.

(** ** Task creation *)

(** X13: [create_motion_sensor_task] returns success exactly when
    [xTaskCreate] returned [pdPASS] or zero; any other status comes back
    as a non-zero 32-bit code, a negative status [s] as [s + 2^32]. *)
Theorem task_creation_result (pdPASS status : Z) :
  int32_range status ->
  (create_motion_sensor_task pdPASS status = CY_RSLT_SUCCESS <->
     status = pdPASS \/ status = 0)
  /\ 0 <= create_motion_sensor_task pdPASS status < 4294967296
  /\ (status <> pdPASS -> status < 0 ->
      create_motion_sensor_task pdPASS status = status + 4294967296).
Proof.
  unfold int32_range, create_motion_sensor_task, to_uint32, CY_RSLT_SUCCESS.
  intros Hrange.
  destruct (Z.eqb_spec status pdPASS) as [Heq | Hneq].
  - split; [split; [intros _; left; exact Heq | reflexivity] |].
    split; [lia | intros Hne; contradiction].
  - assert (Hmod : 0 <= status mod 4294967296 < 4294967296)
      by (apply Z.mod_pos_bound; lia).
    destruct (Z_lt_le_dec status 0) as [Hneg | Hpos].
    + assert (Hval : status mod 4294967296 = status + 4294967296).
      { symmetry. apply (Z.mod_unique _ _ (-1)); lia. }
      rewrite Hval. split; [split; [lia | intros [H | H]; lia] |].
      split; [lia | reflexivity].
    + rewrite Z.mod_small by lia.
      split; [split; [intros H; right; exact H | intros [H | H]; [contradiction | exact H]] |].
      split; lia.
Qed.

Lemma task_creation_result_witness :
  (create_motion_sensor_task 1 (-1) = CY_RSLT_SUCCESS <-> -1 = 1 \/ -1 = 0)
  /\ 0 <= create_motion_sensor_task 1 (-1) < 4294967296
  /\ (-1 <> 1 -> -1 < 0 ->
      create_motion_sensor_task 1 (-1) = -1 + 4294967296).
Proof.
  apply (task_creation_result 1 (-1)).
  unfold int32_range. lia.
Defined.

(** ** Waiting for the user button *)

Section UserButtonFacts.

Variable CYBSP_BTN_PRESSED : Z.
Variable CYBSP_BTN_OFF : Z.
Variable cyhal_gpio_read : nat -> bool.

Lemma wait_until_pressed_returns (fuel k i : nat) :
  (k <= i)%nat ->
  (i - k < fuel)%nat ->
  (forall m, (k <= m < i)%nat ->
             Z.b2z (cyhal_gpio_read m) <> CYBSP_BTN_PRESSED) ->
  Z.b2z (cyhal_gpio_read i) = CYBSP_BTN_PRESSED ->
  wait_until_pressed CYBSP_BTN_PRESSED cyhal_gpio_read fuel k = Some (S i).
Proof.
  revert k. induction fuel as [| fuel IH]; intros k Hki Hfuel Hup Hdown;
    [lia |].
  cbn [wait_until_pressed].
  destruct (Z.eqb_spec (Z.b2z (cyhal_gpio_read k)) CYBSP_BTN_PRESSED)
    as [Heq | Hneq]; cbn [negb].
  - destruct (Nat.eq_dec k i) as [-> | Hne]; [reflexivity |].
    exfalso. apply (Hup k); [lia | exact Heq].
  - assert (k <> i) by (intros ->; contradiction).
    apply IH; [lia | lia | intros m Hm; apply Hup; lia | exact Hdown].
Qed.

Lemma wait_while_off_returns (fuel k j : nat) :
  (k <= j)%nat ->
  (j - k < fuel)%nat ->
  (forall m, (k <= m < j)%nat -> Z.b2z (cyhal_gpio_read m) = CYBSP_BTN_OFF) ->
  Z.b2z (cyhal_gpio_read j) <> CYBSP_BTN_OFF ->
  wait_while_off CYBSP_BTN_OFF cyhal_gpio_read fuel k = Some (S j).
Proof.
  revert k. induction fuel as [| fuel IH]; intros k Hkj Hfuel Hoff Hon;
    [lia |].
  cbn [wait_while_off].
  destruct (Z.eqb_spec (Z.b2z (cyhal_gpio_read k)) CYBSP_BTN_OFF)
    as [Heq | Hneq].
  - assert (k <> j) by (intros ->; contradiction).
    apply IH; [lia | lia | intros m Hm; apply Hoff; lia | exact Hon].
  - destruct (Nat.eq_dec k j) as [-> | Hne]; [reflexivity |].
    exfalso. apply Hneq, Hoff. lia.
Qed.

Lemma wait_until_pressed_inv (fuel k n : nat) :
  wait_until_pressed CYBSP_BTN_PRESSED cyhal_gpio_read fuel k = Some n ->
  exists i : nat,
    n = S i /\ (k <= i)%nat
    /\ Z.b2z (cyhal_gpio_read i) = CYBSP_BTN_PRESSED
    /\ (forall m, (k <= m < i)%nat ->
                  Z.b2z (cyhal_gpio_read m) <> CYBSP_BTN_PRESSED).
Proof.
  revert k. induction fuel as [| fuel IH]; intros k Hrun; [discriminate |].
  cbn [wait_until_pressed] in Hrun.
  destruct (Z.eqb_spec (Z.b2z (cyhal_gpio_read k)) CYBSP_BTN_PRESSED)
    as [Heq | Hneq]; cbn [negb] in Hrun.
  - inversion Hrun; subst n. exists k.
    repeat split; [lia | exact Heq | intros m Hm; lia].
  - destruct (IH _ Hrun) as (i & -> & Hki & Hi & Hup). exists i.
    repeat split; [lia | exact Hi |].
    intros m Hm. destruct (Nat.eq_dec m k) as [-> | Hne];
      [exact Hneq | apply Hup; lia].
Qed.

Lemma wait_while_off_inv (fuel k n : nat) :
  wait_while_off CYBSP_BTN_OFF cyhal_gpio_read fuel k = Some n ->
  exists j : nat,
    n = S j /\ (k <= j)%nat
    /\ Z.b2z (cyhal_gpio_read j) <> CYBSP_BTN_OFF
    /\ (forall m, (k <= m < j)%nat ->
                  Z.b2z (cyhal_gpio_read m) = CYBSP_BTN_OFF).
Proof.
  revert k. induction fuel as [| fuel IH]; intros k Hrun; [discriminate |].
  cbn [wait_while_off] in Hrun.
  destruct (Z.eqb_spec (Z.b2z (cyhal_gpio_read k)) CYBSP_BTN_OFF)
    as [Heq | Hneq].
  - destruct (IH _ Hrun) as (j & -> & Hkj & Hj & Hoff). exists j.
    repeat split; [lia | exact Hj |].
    intros m Hm. destruct (Nat.eq_dec m k) as [-> | Hne];
      [exact Heq | apply Hoff; lia].
  - inversion Hrun; subst n. exists k.
    repeat split; [lia | exact Hneq | intros m Hm; lia].
Qed.

(** X14: the wait returns as soon as the button has read pressed and a
    later read is not [CYBSP_BTN_OFF]: if read [i] is the first pressed
    one and read [j], after it, the first from [i + 1] on that is not
    off, then with fuel for more than [j] reads the function returns
    after [j + 1] reads.  A button held down from read [i] on gives
    [j = i + 1], so the function does not wait for the release. *)
Theorem switch_wait_returns_on_second_press_reading (fuel i j : nat) :
  (forall m, (m < i)%nat -> Z.b2z (cyhal_gpio_read m) <> CYBSP_BTN_PRESSED) ->
  Z.b2z (cyhal_gpio_read i) = CYBSP_BTN_PRESSED ->
  (i < j)%nat ->
  (forall m, (i < m < j)%nat -> Z.b2z (cyhal_gpio_read m) = CYBSP_BTN_OFF) ->
  Z.b2z (cyhal_gpio_read j) <> CYBSP_BTN_OFF ->
  (j < fuel)%nat ->
  wait_for_switch_press_and_release CYBSP_BTN_PRESSED CYBSP_BTN_OFF
    cyhal_gpio_read fuel = Some (S j).
Proof.
  intros Hup Hdown Hij Hoff Hon Hfuel.
  unfold wait_for_switch_press_and_release.
  rewrite (wait_until_pressed_returns fuel O i);
    [| lia | lia | intros m Hm; apply Hup; lia | exact Hdown].
  apply wait_while_off_returns;
    [lia | lia | intros m Hm; apply Hoff; lia | exact Hon].
Qed.

(** X15: whenever the wait returns, it has made at least two reads, the
    last reading was not [CYBSP_BTN_OFF], and some earlier reading was
    [CYBSP_BTN_PRESSED], the first such one; every reading between the
    two was off. *)
Theorem switch_wait_return_readings (fuel n : nat) :
  wait_for_switch_press_and_release CYBSP_BTN_PRESSED CYBSP_BTN_OFF
    cyhal_gpio_read fuel = Some n ->
  exists i j : nat,
    n = S j /\ (i < j)%nat
    /\ Z.b2z (cyhal_gpio_read i) = CYBSP_BTN_PRESSED
    /\ (forall m, (m < i)%nat ->
                  Z.b2z (cyhal_gpio_read m) <> CYBSP_BTN_PRESSED)
    /\ Z.b2z (cyhal_gpio_read j) <> CYBSP_BTN_OFF
    /\ (forall m, (i < m < j)%nat ->
                  Z.b2z (cyhal_gpio_read m) = CYBSP_BTN_OFF).
Proof.
  unfold wait_for_switch_press_and_release. intros Hrun.
  destruct (wait_until_pressed CYBSP_BTN_PRESSED cyhal_gpio_read fuel O)
    as [k |] eqn:Hfirst; [| discriminate].
  destruct (wait_until_pressed_inv _ _ _ Hfirst) as (i & -> & _ & Hi & Hup).
  destruct (wait_while_off_inv _ _ _ Hrun) as (j & -> & Hij & Hj & Hoff).
  exists i, j.
  split; [reflexivity |]. split; [lia |]. split; [exact Hi |].
  split; [intros m Hm; apply Hup; lia |]. split; [exact Hj |].
  intros m Hm. apply Hoff. lia.
Qed.

End UserButtonFacts.

(** The button is up for three reads and then held down: the wait
    returns after five reads, with the button still down. *)
Lemma switch_wait_returns_on_second_press_reading_witness :
  wait_for_switch_press_and_release 0 1 held_button 10 = Some 5%nat.
Proof.
  apply (switch_wait_returns_on_second_press_reading 0 1 held_button 10 3 4).
  - intros m Hm. unfold held_button.
    destruct (Nat.ltb_spec m 3); [discriminate | lia].
  - reflexivity.
  - lia.
  - intros m Hm. lia.
  - discriminate.
  - lia.
Defined.

Lemma switch_wait_return_readings_witness :
  exists i j : nat,
    5%nat = S j /\ (i < j)%nat
    /\ Z.b2z (held_button i) = 0
    /\ (forall m, (m < i)%nat -> Z.b2z (held_button m) <> 0)
    /\ Z.b2z (held_button j) <> 1
    /\ (forall m, (i < m < j)%nat -> Z.b2z (held_button m) = 1).
Proof.
  apply (switch_wait_return_readings 0 1 held_button 10 5).
  reflexivity.
Defined.

(** ** What a read leaves behind *)

Section UpdateFrame.

Variable BMI160_E_NULL_PTR : cy_rslt_t.
Variable hw : hardware.

(** X17: whenever [motionsensor_update_orientation] returns, the
    semaphore and the pending notification are as it found them.  With
    the NULL pointer it returns [BMI160_E_NULL_PTR] and has touched
    nothing, neither semaphore nor bus; with a valid pointer it has made
    exactly one sensor read. *)
Theorem update_orientation_frame
    (orientation_result : option orientation_t) (w w' : world)
    (r : cy_rslt_t * option orientation_t) :
  motionsensor_update_orientation BMI160_E_NULL_PTR hw orientation_result w =
    (Ret r, w') ->
  i2c_semaphore w' = i2c_semaphore w
  /\ notify_pending w' = notify_pending w
  /\ match orientation_result with
     | None => w' = w /\ r = (BMI160_E_NULL_PTR, None)
     | Some _ =>
         reads_done w' = S (reads_done w)
         /\ trace w' = trace w ++ [EvSemTake; EvBus BMI160_READ; EvSemGive]
         /\ fst r = fst (mtb_bmi160_read_rslt hw (reads_done w))
     end.
Proof.
  destruct orientation_result as [old |].
  - destruct (i2c_semaphore w) as [[|] |] eqn:Hsem.
    + rewrite update_orientation_run by assumption.
      intros Hrun. inversion Hrun; subst. cbn.
      repeat split; reflexivity.
    + unfold motionsensor_update_orientation, bind, xSemaphoreTake.
      rewrite Hsem. discriminate.
    + unfold motionsensor_update_orientation, bind, xSemaphoreTake.
      rewrite Hsem. discriminate.
  - unfold motionsensor_update_orientation, ret. intros Hrun.
    inversion Hrun; subst. repeat split; reflexivity.
Qed.

End UpdateFrame.

Lemma update_orientation_frame_witness :
  i2c_semaphore
    (mk_world (Some true) false 1 [EvSemTake; EvBus BMI160_READ; EvSemGive])
  = i2c_semaphore idle
  /\ notify_pending
       (mk_world (Some true) false 1 [EvSemTake; EvBus BMI160_READ; EvSemGive])
     = notify_pending idle
  /\ (reads_done
        (mk_world (Some true) false 1 [EvSemTake; EvBus BMI160_READ; EvSemGive])
      = S (reads_done idle)
      /\ trace
           (mk_world (Some true) false 1
                     [EvSemTake; EvBus BMI160_READ; EvSemGive])
         = trace idle ++ [EvSemTake; EvBus BMI160_READ; EvSemGive]
      /\ fst (CY_RSLT_SUCCESS, Some ORIENTATION_DISP_UP)
         = fst (mtb_bmi160_read_rslt (steady_board 10 20 900)
                  (reads_done idle))).
Proof.
  apply (update_orientation_frame example_null_ptr (steady_board 10 20 900)
           (Some ORIENTATION_NULL) idle
           (mk_world (Some true) false 1
                     [EvSemTake; EvBus BMI160_READ; EvSemGive])
           (CY_RSLT_SUCCESS, Some ORIENTATION_DISP_UP)).
  reflexivity.
Defined.
